(** * HoloShare upload service (main.py): model and properties

  The service of [main.py] is embedded as ordinary functions.  A request
  handler that touches the disk or the metadata store is a computation in
  a small state-and-exception monad over the [World] (the files of the
  storage directory and the collections of the database); what the handler
  cannot decide itself (the clock, a failing disk, a failing database link,
  the identifier the store generates) is an explicit input [Env].

  Python strings are modelled as [string], the bytes of their UTF-8
  encoding; [lower] acts on the letters [A]-[Z], which is what decides the
  three extension tests of the upload handler, and slicing counts code
  points.  File contents are [list Byte.byte]. *)

From Stdlib Require Import Ascii String NArith ZArith Lia List.
From Stdlib.Strings Require Import Byte.
From stdpp Require Import base option strings gmap list vector pretty.

Local Open Scope string_scope.

(** ** The Python runtime functions the handlers call *)

Module Py.

(** [str.lower] on one character: [A]-[Z] are moved to [a]-[z]. *)
Definition lower_char (c : ascii) : ascii :=
  let n := N_of_ascii c in
  if ((65 <=? n) && (n <=? 90))%N then ascii_of_N (n + 32) else c.

Fixpoint lower (s : string) : string :=
  match s with
  | "" => ""
  | String c s' => String (lower_char c) (lower s')
  end.

(** [s.startswith(p)] for a one-character [p]. *)
Definition startswith_char (s : string) (c : ascii) : bool :=
  match s with
  | String c' _ => bool_decide (c' = c)
  | "" => false
  end.

(** [s.endswith(suf)]: the last [len(suf)] characters of [s] are [suf]. *)
Definition endswith (s suf : string) : bool :=
  (String.length suf <=? String.length s)%nat
  && String.eqb
       (String.substring (String.length s - String.length suf)
                         (String.length suf) s)
       suf.

(** [posixpath.join(a, b)]: an absolute [b] discards [a]; otherwise the
    two are glued with exactly one separator between them. *)
Definition os_path_join (a b : string) : string :=
  if startswith_char b "/" then b
  else if bool_decide (a = "") || endswith a "/" then a +:+ b
  else a +:+ "/" +:+ b.

(** [datetime]: the fields of an aware UTC timestamp. *)
Record datetime := mk_datetime {
  year : N; month : N; day : N;
  hour : N; minute : N; second : N; microsecond : N
}.

(** The ranges the [datetime] type enforces on its fields. *)
Definition valid_datetime (d : datetime) : Prop :=
  (1 <= year d <= 9999 /\ 1 <= month d <= 12 /\ 1 <= day d <= 31 /\
   hour d <= 23 /\ minute d <= 59 /\ second d <= 59 /\
   microsecond d <= 999999)%N.

Definition digit (n : N) : ascii := ascii_of_N (48 + n).

(** [width] decimal digits of [n], most significant first, padded with
    zeros; every field of a valid datetime fits its width. *)
Fixpoint zero_pad (width : nat) (n : N) : string :=
  match width with
  | O => ""
  | S w => zero_pad w (n / 10) +:+ String (digit (n mod 10)) ""
  end.

(** One conversion directive of [strftime]. *)
Definition directive (c : ascii) (d : datetime) : string :=
  match c with
  | "Y"%char => zero_pad 4 (year d)
  | "m"%char => zero_pad 2 (month d)
  | "d"%char => zero_pad 2 (day d)
  | "H"%char => zero_pad 2 (hour d)
  | "M"%char => zero_pad 2 (minute d)
  | "S"%char => zero_pad 2 (second d)
  | "f"%char => zero_pad 6 (microsecond d)
  | _ => String "%" (String c "")
  end.

(** [d.strftime(fmt)]: directives are expanded, other characters copied. *)
Fixpoint strftime (fmt : string) (d : datetime) : string :=
  match fmt with
  | "" => ""
  | String "%" (String c rest) => directive c d +:+ strftime rest d
  | String c rest => String c (strftime rest d)
  end.

(** Truthiness of an optional string ([None] and [""] are falsy). *)
Definition truthy (o : option string) : bool :=
  match o with
  | Some s => negb (bool_decide (s = ""))
  | None => false
  end.

(** A byte that continues a code point of the UTF-8 encoding. *)
Definition is_continuation (c : ascii) : bool :=
  let n := N_of_ascii c in ((128 <=? n) && (n <? 192))%N.

(** [len(s)]: the number of code points. *)
Fixpoint code_points (s : string) : nat :=
  match s with
  | "" => O
  | String c s' =>
      if is_continuation c then code_points s' else S (code_points s')
  end.

(** [s[:n]]: the first [n] code points, each with all of its bytes. *)
Fixpoint slice_to (n : nat) (s : string) : string :=
  match s with
  | "" => ""
  | String c s' =>
      if is_continuation c then String c (slice_to n s')
      else match n with
           | O => ""
           | S n' => String c (slice_to n' s')
           end
  end.

End Py.


(** ** bson.ObjectId

    [get_asset] imports [ObjectId] from the [bson] package.  The handlers use
    two of its operations, the constructor from a string (which raises on a
    malformed one) and [str]; the package guarantees that an identifier
    printed with [str] is read back as itself. *)

Class BsonObjectId := {
  ObjectId : Type;
  ObjectId_eq_dec :: EqDecision ObjectId;
  ObjectId_countable :: Countable ObjectId;
  (** [ObjectId(s)]; [None] stands for the exception the constructor raises *)
  ObjectId_parse : string -> option ObjectId;
  (** [str(oid)] *)
  ObjectId_str : ObjectId -> string;
  ObjectId_parse_str : forall o, ObjectId_parse (ObjectId_str o) = Some o
}.

(** The identifier format of the store, 24 hexadecimal characters for 12
    bytes, as an instance. *)
Module Hex.

Definition hex_digit (n : N) : ascii :=
  if (n <? 10)%N then ascii_of_N (48 + n) else ascii_of_N (87 + n).

Definition unhex_digit (c : ascii) : option N :=
  let n := N_of_ascii c in
  if ((48 <=? n) && (n <=? 57))%N then Some (n - 48)%N
  else if ((97 <=? n) && (n <=? 102))%N then Some (n - 87)%N
  else if ((65 <=? n) && (n <=? 70))%N then Some (n - 55)%N
  else None.

Definition hex_byte (b : ascii) (rest : string) : string :=
  let n := N_of_ascii b in
  String (hex_digit (n / 16)) (String (hex_digit (n mod 16)) rest).

Definition unhex_byte (h l : ascii) : option ascii :=
  match unhex_digit h, unhex_digit l with
  | Some a, Some b => Some (ascii_of_N (16 * a + b))
  | _, _ => None
  end.

Definition hex (bs : list ascii) : string := foldr hex_byte "" bs.

Fixpoint unhex (s : string) : option (list ascii) :=
  match s with
  | "" => Some []
  | String h (String l rest) =>
      match unhex_byte h l, unhex rest with
      | Some b, Some bs => Some (b :: bs)
      | _, _ => None
      end
  | String _ "" => None
  end.

Definition twelve (bs : list ascii) : option (vec ascii 12) :=
  match bs with
  | [b0; b1; b2; b3; b4; b5; b6; b7; b8; b9; b10; b11] =>
      Some [# b0; b1; b2; b3; b4; b5; b6; b7; b8; b9; b10; b11]
  | _ => None
  end.

Definition parse (s : string) : option (vec ascii 12) :=
  if bool_decide (String.length s = 24%nat) then
    match unhex s with Some bs => twelve bs | None => None end
  else None.

Definition str (o : vec ascii 12) : string := hex (vec_to_list o).

End Hex.

(** ** Exceptions and the handler monad *)

(** What a handler can raise: FastAPI's [HTTPException], turned into a
    response with its status code, or any other exception, which the
    framework answers with status 500. *)
Inductive exn :=
| HTTPException (status_code : nat) (detail : string)
| Exception (msg : string).

(** [str(e)] *)
Definition exn_str (e : exn) : string :=
  match e with
  | HTTPException _ d => d
  | Exception m => m
  end.

Definition Result (A : Type) : Type := exn + A.

(** The HTTP status the framework sends for a handler's outcome. *)
Definition status {A} (r : Result A) : nat :=
  match r with
  | inr _ => 200
  | inl (HTTPException c _) => c
  | inl (Exception _) => 500
  end.

(** A computation over a mutable state [S] that returns or raises; the
    state reached when the exception is raised is kept. *)
Definition M (S A : Type) : Type := S -> Result A * S.

Definition ret {S A} (a : A) : M S A := fun s => (inr a, s).
Definition raise {S A} (e : exn) : M S A := fun s => (inl e, s).
Definition bind {S A B} (m : M S A) (k : A -> M S B) : M S B :=
  fun s => match m s with
           | (inr a, s') => k a s'
           | (inl e, s') => (inl e, s')
           end.
(** [try: body except Exception as e: handler(e)] *)
Definition try_except {S A} (body : M S A) (handler : exn -> M S A) : M S A :=
  fun s => match body s with
           | (inl e, s') => handler e s'
           | r => r
           end.
Definition modify {S} (f : S -> S) : M S unit := fun s => (inr tt, f s).

Notation "'do' x <- m ; k" := (bind m (fun x => k))
  (at level 10, x name, m at level 100, k at level 200).
Notation "'run' m ; k" := (bind m (fun _ => k))
  (at level 10, m at level 100, k at level 200).

(** ** The storage directory

    The service owns one flat directory, [STORAGE_DIR]; its regular files
    are kept by name.  Whatever lies outside that directory is kept by the
    path as it is spelled, so that a write which leaves the directory is
    visible in the model. *)

Inductive Node :=
| File (content : list byte)
| Directory.

(** [s.split("/")] *)
Fixpoint components (s : string) : list string :=
  match s with
  | "" => [""]
  | String c s' =>
      if bool_decide (c = "/"%char) then "" :: components s'
      else match components s' with
           | x :: xs => String c x :: xs
           | [] => [String c ""]
           end
  end.

Fixpoint strip_prefix (p s : string) : option string :=
  match p, s with
  | "", _ => Some s
  | String a p', String b s' =>
      if bool_decide (a = b) then strip_prefix p' s' else None
  | String _ _, "" => None
  end.

(** Where a path leads. *)
Inductive Location :=
| InRoot (name : string)   (** the entry [name] of the storage directory *)
| RootDir                  (** the storage directory itself *)
| Outside                  (** a place that is not in the storage directory *)
| NoEntry.                 (** through an entry that is not a directory *)

(** Path resolution below the storage directory, component by component:
    empty components and [.] stay, [..] leaves the directory, and since the
    directory is flat a name can only be the last component. *)
Fixpoint walk (cs : list string) : Location :=
  match cs with
  | [] => RootDir
  | c :: rest =>
      if bool_decide (c = "") || bool_decide (c = ".") then walk rest
      else if bool_decide (c = "..") then Outside
      else match rest with
           | [] => InRoot c
           | _ :: _ => NoEntry
           end
  end.

Definition locate (root path : string) : Location :=
  if bool_decide (path = root) then RootDir
  else match strip_prefix (root +:+ "/") path with
       | Some rel => walk (components rel)
       | None => Outside
       end.

(** How the disk behaves during one request: it works, [open] fails (the
    directory is not writable), or [write] fails after [written] bytes (the
    disk is full). *)
Inductive DiskFault :=
| NoFault
| OpenFails (msg : string)
| WriteFails (written : nat) (msg : string).

(** ** The service *)

Section Service.
Context `{BsonObjectId}.

(** A value of a stored document or of a JSON body. *)
Inductive Value :=
| VNull
| VStr (s : string)
| VInt (n : Z)
| VDate (d : Py.datetime)
| VOid (o : ObjectId).

(** What the handlers read and change: the regular files of the storage
    directory by name, the nodes outside it by path, and the collections
    of the database by name, each a map from identifier to document. *)
Record World := mk_World {
  files : gmap string (list byte);
  elsewhere : gmap string Node;
  mongo : gmap string (gmap ObjectId (gmap string Value))
}.

Definition set_files (f : gmap string (list byte)) (w : World) : World :=
  mk_World f (elsewhere w) (mongo w).
Definition set_elsewhere (x : gmap string Node) (w : World) : World :=
  mk_World (files w) x (mongo w).
Definition set_mongo (m : gmap string (gmap ObjectId (gmap string Value)))
  (w : World) : World :=
  mk_World (files w) (elsewhere w) m.

(** The outcome of reading an attribute of an object. *)
Inductive Attr :=
| AttrMissing
| AttrValue (v : string)
| AttrRaises (msg : string).

(** The [db] object imported from [database]: a handle whose [name]
    attribute is all the handlers read of it. *)
Record Database := mk_Database { name_attr : Attr }.

(** The state fixed when the module is loaded. *)
Record Globals := mk_Globals {
  cwd : string;              (** [os.getcwd()] *)
  db : option Database       (** [None] when the database is not set up *)
}.

(** What one request finds outside the handler. *)
Record Env := mk_Env {
  now : Py.datetime;                 (** [datetime.now(timezone.utc)] *)
  disk : DiskFault;
  db_error : option string;          (** the exception database calls raise *)
  new_oid : ObjectId;                (** the identifier the store generates *)
  getenv : string -> option string   (** [os.getenv] *)
}.

Definition STORAGE_DIR (g : Globals) : string :=
  Py.os_path_join (cwd g) "uploads".

(** *** Files *)

(** An open file: where its bytes go. *)
Inductive Handle :=
| HEntry (name : string)
| HOutside (path : string).

(** [open(path, 'wb')]: creates or truncates the file. *)
Definition open_wb (root : string) (fault : DiskFault) (path : string)
  : M World Handle :=
  match fault with
  | OpenFails msg => raise (Exception msg)
  | _ =>
      match locate root path with
      | InRoot name =>
          run modify (fun w => set_files (<[name := []]> (files w)) w);
          ret (HEntry name)
      | RootDir => raise (Exception "IsADirectoryError")
      | NoEntry => raise (Exception "FileNotFoundError")
      | Outside =>
          fun w =>
            match elsewhere w !! path with
            | Some Directory => (inl (Exception "IsADirectoryError"), w)
            | _ => (inr (HOutside path),
                    set_elsewhere (<[path := File []]> (elsewhere w)) w)
            end
      end
  end.

Definition put (h : Handle) (content : list byte) : M World unit :=
  modify (fun w =>
    match h with
    | HEntry name => set_files (<[name := content]> (files w)) w
    | HOutside path => set_elsewhere (<[path := File content]> (elsewhere w)) w
    end).

(** [f.write(content)] followed by the close of the [with] block. *)
Definition f_write (fault : DiskFault) (h : Handle) (content : list byte)
  : M World unit :=
  match fault with
  | WriteFails written msg =>
      run put h (take written content);
      raise (Exception msg)
  | _ => put h content
  end.

(** [os.path.exists(path)] *)
Definition os_path_exists (root path : string) (w : World) : bool :=
  match locate root path with
  | InRoot name => bool_decide (is_Some (files w !! name))
  | RootDir => true
  | Outside => bool_decide (is_Some (elsewhere w !! path))
  | NoEntry => false
  end.

(** [FileResponse(path)]: the bytes of the regular file at [path]. *)
Definition FileResponse (root path : string) : M World (list byte) :=
  fun w =>
    let found :=
      match locate root path with
      | InRoot name => files w !! name
      | Outside =>
          match elsewhere w !! path with
          | Some (File content) => Some content
          | _ => None
          end
      | RootDir | NoEntry => None
      end in
    match found with
    | Some content => (inr content, w)
    | None => (inl (Exception "RuntimeError: not a file"), w)
    end.

(** *** The metadata store *)

(** Modelled from the spec: [create_document] of [database.py], which is not
    part of the sources.  It inserts the given fields plus a creation
    timestamp set by the server into the named collection and returns the
    newly generated identifier as a string.  The identifier is unique: the
    insert of one that the collection already holds fails.  Without a
    database, or when the database call fails, it raises. *)
Definition create_document (g : Globals) (e : Env) (collection_name : string)
  (data : gmap string Value) : M World string :=
  match db g with
  | None => raise (Exception "Database not available")
  | Some _ =>
      match db_error e with
      | Some msg => raise (Exception msg)
      | None =>
          fun w =>
            let coll := default ∅ (mongo w !! collection_name) in
            match coll !! new_oid e with
            | Some _ => (inl (Exception "DuplicateKeyError"), w)
            | None =>
                let doc := <["created_at" := VDate (now e)]> data in
                (inr (ObjectId_str (new_oid e)),
                 set_mongo
                   (<[collection_name := <[new_oid e := doc]> coll]> (mongo w))
                   w)
            end
      end
  end.

(** [db[collection_name].find_one({"_id": oid})]: the document, with its
    [_id], or [None]. *)
Definition find_one (g : Globals) (e : Env) (collection_name : string)
  (oid : ObjectId) : M World (option (gmap string Value)) :=
  match db g with
  | None => raise (Exception "TypeError: 'NoneType' object is not subscriptable")
  | Some _ =>
      match db_error e with
      | Some msg => raise (Exception msg)
      | None =>
          fun w =>
            (inr (insert "_id" (VOid oid)
                    <$> default ∅ (mongo w !! collection_name) !! oid), w)
      end
  end.

(** [db.list_collection_names()] *)
Definition list_collection_names (e : Env) (w : World) : Result (list string) :=
  match db_error e with
  | Some msg => inl (Exception msg)
  | None => inr (fst <$> map_to_list (mongo w))
  end.

(** *** Handlers *)

Record UploadFile := mk_UploadFile {
  filename : string;
  content_type : option string;
  body : list byte                   (** what [await file.read()] returns *)
}.

Record UploadResponse := mk_UploadResponse {
  r_id : string;
  r_url : string
}.

Definition read_root : string := "HoloShare backend running".

Definition allowed_extension (name_lower : string) : bool :=
  Py.endswith name_lower ".glb" || Py.endswith name_lower ".gltf"
  || Py.endswith name_lower ".usdz".

Definition save_name (e : Env) (file : UploadFile) : string :=
  let unique := Py.strftime "%Y%m%d%H%M%S%f" (now e) in
  unique +:+ "_" +:+ filename file.

Definition save_path (g : Globals) (e : Env) (file : UploadFile) : string :=
  Py.os_path_join (STORAGE_DIR g) (save_name e file).

Definition opt_str (o : option string) : Value :=
  match o with
  | Some s => VStr s
  | None => VNull
  end.

(** The dictionary handed to [create_document]. *)
Definition asset_fields (g : Globals) (e : Env) (file : UploadFile)
  : gmap string Value :=
  <["filename" := VStr (filename file)]>
  (<["content_type" := opt_str (content_type file)]>
  (<["size_bytes" := VInt (Z.of_nat (length (body file)))]>
  (<["url" := VStr ("/files/" +:+ save_name e file)]>
  (<["storage_path" := VStr (save_path g e file)]> ∅)))).

(** The block of the handler that stores the content to disk. *)
Definition store_to_disk (g : Globals) (e : Env) (file : UploadFile)
  : M World unit :=
  let content := body file in
  do f <- open_wb (STORAGE_DIR g) (disk e) (save_path g e file);
  f_write (disk e) f content.

(** [POST /upload] *)
Definition upload_model (g : Globals) (e : Env) (file : UploadFile)
  : M World UploadResponse :=
  let name_lower := Py.lower (filename file) in
  if negb (allowed_extension name_lower) then
    raise (HTTPException 400 "Only .glb, .gltf, .usdz files are supported")
  else
    run store_to_disk g e file;
    let public_url := "/files/" +:+ save_name e file in
    do doc_id <- create_document g e "asset" (asset_fields g e file);
    ret (mk_UploadResponse doc_id public_url).

(** [GET /files/{filename}] *)
Definition serve_file (g : Globals) (name : string) : M World (list byte) :=
  let path := Py.os_path_join (STORAGE_DIR g) name in
  fun w =>
    if negb (os_path_exists (STORAGE_DIR g) path w) then
      (inl (HTTPException 404 "File not found"), w)
    else FileResponse (STORAGE_DIR g) path w.

Record AssetResponse := mk_AssetResponse {
  a_id : string;
  a_url : Value
}.

(** [not doc] for the result of [find_one] *)
Definition falsy (doc : option (gmap string Value)) : bool :=
  match doc with
  | None => true
  | Some d => bool_decide (d = ∅)
  end.

(** [doc.get(key)] *)
Definition dict_get (doc : gmap string Value) (key : string) : Value :=
  default VNull (doc !! key).

(** [GET /asset/{id}] *)
Definition get_asset (g : Globals) (e : Env) (id : string)
  : M World AssetResponse :=
  match ObjectId_parse id with
  | None => raise (HTTPException 400 "Invalid id")
  | Some oid =>
      do doc <- find_one g e "asset" oid;
      if falsy doc then raise (HTTPException 404 "Not found or expired")
      else ret (mk_AssetResponse id (dict_get (default ∅ doc) "url"))
  end.

(** The dictionary [GET /test] fills in, one field per key. *)
Record TestResponse := mk_TestResponse {
  backend : string;
  database : string;
  database_url : option string;
  database_name : option string;
  connection_status : string;
  collections : list string
}.

Definition set_database (v : string) : M TestResponse unit :=
  modify (fun r => mk_TestResponse (backend r) v (database_url r)
                     (database_name r) (connection_status r) (collections r)).
Definition set_database_url (v : option string) : M TestResponse unit :=
  modify (fun r => mk_TestResponse (backend r) (database r) v
                     (database_name r) (connection_status r) (collections r)).
Definition set_database_name (v : option string) : M TestResponse unit :=
  modify (fun r => mk_TestResponse (backend r) (database r) (database_url r)
                     v (connection_status r) (collections r)).
Definition set_collections (v : list string) : M TestResponse unit :=
  modify (fun r => mk_TestResponse (backend r) (database r) (database_url r)
                     (database_name r) (connection_status r) v).

(** [db.name if hasattr(db, 'name') else "✅ Connected"]: a missing
    attribute gives the default, any other failure of the lookup is raised. *)
Definition name_or_default (d : Database) : M TestResponse string :=
  match name_attr d with
  | AttrValue v => ret v
  | AttrMissing => ret "✅ Connected"
  | AttrRaises msg => raise (Exception msg)
  end.

Definition set_or_not (o : option string) : option string :=
  Some (if Py.truthy o then "✅ Set" else "❌ Not Set").

(** [GET /test] *)
Definition test_database (g : Globals) (e : Env) : M World TestResponse :=
  fun w =>
    let response :=
      mk_TestResponse "✅ Running" "❌ Not Available" None None
        "Not Connected" [] in
    let filled : M TestResponse unit :=
      run try_except
        (match db g with
         | Some d =>
             run set_database "✅ Available";
             run set_database_url (Some "✅ Configured");
             do name <- name_or_default d;
             run set_database_name (Some name);
             try_except
               (do collections <- (fun r => (list_collection_names e w, r));
                run set_collections (take 10 collections);
                set_database "✅ Connected & Working")
               (fun ex =>
                  set_database ("⚠️  Connected but Error: "
                                +:+ Py.slice_to 50 (exn_str ex)))
         | None => set_database "⚠️  Available but not initialized"
         end)
        (fun ex => set_database ("❌ Error: " +:+ Py.slice_to 50 (exn_str ex)));
      run set_database_url (set_or_not (getenv e "DATABASE_URL"));
      set_database_name (set_or_not (getenv e "DATABASE_NAME")) in
    match filled response with
    | (inr _, response') => (inr response', w)
    | (inl ex, _) => (inl ex, w)
    end.

(** The collection of asset records. *)
Definition assets (w : World) : gmap ObjectId (gmap string Value) :=
  default ∅ (mongo w !! "asset").

(** The record an upload inserts. *)
Definition asset_record (g : Globals) (e : Env) (file : UploadFile)
  : gmap string Value :=
  <["created_at" := VDate (now e)]> (asset_fields g e file).

(** Whether the database can be reached: there is a database object, the
    lookup of its name does not fail, and the database answers. *)
Definition database_reachable (g : Globals) (e : Env) : bool :=
  match db g with
  | Some d =>
      match name_attr d, db_error e with
      | AttrRaises _, _ => false
      | _, Some _ => false
      | _, None => true
      end
  | None => false
  end.

(** *** Routing and runs of the service *)

Fixpoint has_slash (s : string) : bool :=
  match s with
  | "" => false
  | String c s' => bool_decide (c = "/"%char) || has_slash s'
  end.

(** The part of a url that names the path: what stands before the first
    [?] (the query) or [#] (the fragment). *)
Fixpoint before_query (url : string) : string :=
  match url with
  | "" => ""
  | String c url' =>
      if bool_decide (c = "?"%char) || bool_decide (c = "#"%char) then ""
      else String c (before_query url')
  end.

(** [urllib.parse.unquote], which the server applies to the path: [%] and
    two hexadecimal digits stand for one byte, any other [%] for itself. *)
Fixpoint percent_decode (s : string) : string :=
  match s with
  | "" => ""
  | String c s' =>
      if bool_decide (c = "%"%char) then
        match s' with
        | String h (String l rest) =>
            match Hex.unhex_byte h l with
            | Some b => String b (percent_decode rest)
            | None => String c (percent_decode s')
            end
        | _ => String c (percent_decode s')
        end
      else String c (percent_decode s')
  end.

(** The path the application sees when [url] is fetched. *)
Definition request_path (url : string) : string :=
  percent_decode (before_query url).




Inductive Request :=
| GetRoot
| PostUpload (file : UploadFile)
| GetFile (name : string)
| GetAsset (id : string)
| GetTest.

(** The world after one request has been answered. *)
Definition handle (g : Globals) (e : Env) (r : Request) (w : World) : World :=
  match r with
  | GetRoot => w
  | PostUpload file => snd (upload_model g e file w)
  | GetFile name => snd (serve_file g name w)
  | GetAsset id => snd (get_asset g e id w)
  | GetTest => snd (test_database g e w)
  end.

(** The world after a sequence of requests, each with its environment. *)
Definition serve (g : Globals) (rs : list (Env * Request)) (w : World) : World :=
  foldl (fun w' er => handle g (fst er) (snd er) w') w rs.


End Service.

(** ** The extension of a file name, in the words of the specification *)

Fixpoint has_dot (s : string) : bool :=
  match s with
  | "" => false
  | String c s' => bool_decide (c = "."%char) || has_dot s'
  end.

(** The extension of a name: its part from the last dot on, empty when the
    name has no dot. *)
Fixpoint extension (s : string) : string :=
  match s with
  | "" => ""
  | String c s' =>
      if has_dot s' then extension s'
      else if bool_decide (c = "."%char) then s else ""
  end.

Definition supported_extensions : list string := [".glb"; ".gltf"; ".usdz"].

(** * Properties *)

(** ** Strings *)

Section Strings.
Implicit Types s t p q : string.

Lemma app_cons a s t : String a s +:+ t = String a (s +:+ t).
Proof. reflexivity. Qed.

Lemma app_nil_r s : s +:+ "" = s.
Proof. induction s as [|a s IH]; [reflexivity|]. by rewrite app_cons, IH. Qed.

Lemma app_assoc s t p : (s +:+ t) +:+ p = s +:+ t +:+ p.
Proof. induction s as [|a s IH]; [reflexivity|]. by rewrite !app_cons, IH. Qed.

Lemma length_app s t :
  String.length (s +:+ t) = (String.length s + String.length t)%nat.
Proof. induction s as [|a s IH]; [reflexivity|]. rewrite app_cons. simpl. lia. Qed.

(** Two concatenations with left parts of one length agree part by part. *)
Lemma app_inj_length s s' t t' :
  String.length s = String.length s' -> s +:+ t = s' +:+ t' -> s = s' /\ t = t'.
Proof.
  revert s'. induction s as [|a s IH]; intros [|a' s'] Hlen Heq;
    simpl in Hlen; try discriminate.
  - by split.
  - rewrite !app_cons in Heq. injection Heq as -> Heq.
    destruct (IH s') as [-> ->]; [lia|done|done].
Qed.

Lemma app_inj_r s s' t : s +:+ t = s' +:+ t -> s = s'.
Proof.
  intros Heq. apply (app_inj_length s s' t t); [|done].
  apply (f_equal String.length) in Heq. rewrite !length_app in Heq. lia.
Qed.

Lemma substring_skip p t :
  String.substring (String.length p) (String.length t) (p +:+ t) = t.
Proof.
  induction p as [|a p IH].
  - change ("" +:+ t) with t. simpl.
    induction t as [|b t IH]; [reflexivity|]. simpl. by rewrite IH.
  - rewrite app_cons. simpl. exact IH.
Qed.

Lemma substring_all s : String.substring 0 (String.length s) s = s.
Proof. induction s as [|a s IH]; [reflexivity|]. simpl. by rewrite IH. Qed.

Lemma substring_split k s :
  (k <= String.length s)%nat ->
  s = String.substring 0 k s +:+ String.substring k (String.length s - k) s.
Proof.
  revert k. induction s as [|a s IH]; intros [|k] Hk.
  - reflexivity.
  - simpl in Hk. lia.
  - rewrite Nat.sub_0_r, substring_all. reflexivity.
  - simpl in Hk. simpl. rewrite app_cons. f_equal. apply IH. lia.
Qed.

(** [endswith] holds exactly of the strings that end with the suffix. *)
Lemma endswith_spec s suf :
  Py.endswith s suf = true <-> exists p, s = p +:+ suf.
Proof.
  unfold Py.endswith. rewrite andb_true_iff, Nat.leb_le, String.eqb_eq. split.
  - intros [Hle Hsub].
    exists (String.substring 0 (String.length s - String.length suf) s).
    pose proof (substring_split (String.length s - String.length suf) s) as Hs.
    replace (String.length s - (String.length s - String.length suf))%nat
      with (String.length suf) in Hs by lia.
    rewrite Hsub in Hs. apply Hs. lia.
  - intros [p ->]. rewrite length_app. split; [lia|].
    replace (String.length p + String.length suf - String.length suf)%nat
      with (String.length p) by lia.
    apply substring_skip.
Qed.

Lemma strip_prefix_app p s : strip_prefix p (p +:+ s) = Some s.
Proof.
  induction p as [|a p IH]; [reflexivity|].
  rewrite app_cons. simpl. by rewrite bool_decide_eq_true_2.
Qed.

Lemma has_slash_app s t : has_slash (s +:+ t) = has_slash s || has_slash t.
Proof.
  induction s as [|a s IH]; [reflexivity|].
  rewrite app_cons. simpl. by rewrite IH, orb_assoc.
Qed.

Lemma components_not_nil s : components s <> [].
Proof.
  destruct s as [|a s]; simpl; [done|].
  case_bool_decide; [done|]. by destruct (components s).
Qed.

(** A string without separator is its own single component. *)
Lemma components_no_slash s : has_slash s = false -> components s = [s].
Proof.
  induction s as [|a s IH]; simpl; [done|].
  intros [Ha Hs]%orb_false_iff. rewrite Ha, (IH Hs). done.
Qed.

(** With a separator there are at least two components, and a first
    character that is not the separator starts the first of them. *)
Lemma components_slash a s :
  a <> "/"%char -> has_slash s = true ->
  exists x y ys, components (String a s) = String a x :: y :: ys.
Proof.
  intros Ha Hs. simpl. rewrite (bool_decide_eq_false_2 _ Ha).
  clear Ha. revert a. induction s as [|b s IH]; intros a; simpl in *; [done|].
  case_bool_decide as Hb.
  - destruct (components s) as [|y ys] eqn:Hc; [by apply components_not_nil in Hc|].
    by exists "", y, ys.
  - simpl in Hs. specialize (IH Hs b).
    destruct (components s) as [|z zs] eqn:Hc; [by apply components_not_nil in Hc|].
    destruct IH as (x & y & ys & IH). injection IH as <- ->.
    by eexists _, _, _.
Qed.

End Strings.

(** ** Timestamps *)

Section Timestamps.
Local Open Scope N_scope.

Lemma digit_code k : k < 10 -> N_of_ascii (Py.digit k) = 48 + k.
Proof. intros Hk. unfold Py.digit. apply N_ascii_embedding. lia. Qed.

Lemma digit_inj a b : a < 10 -> b < 10 -> Py.digit a = Py.digit b -> a = b.
Proof.
  intros Ha Hb Heq. apply (f_equal N_of_ascii) in Heq.
  rewrite !digit_code in Heq by done. lia.
Qed.

Lemma digit_not_special k :
  k < 10 -> Py.digit k <> "/"%char /\ Py.digit k <> "."%char.
Proof.
  intros Hk. split; intros Heq; apply (f_equal N_of_ascii) in Heq;
    rewrite digit_code in Heq by done.
  - change (N_of_ascii "/") with 47 in Heq. lia.
  - change (N_of_ascii ".") with 46 in Heq. lia.
Qed.

Lemma length_zero_pad w n : String.length (Py.zero_pad w n) = w.
Proof.
  revert n. induction w as [|w IH]; intros n; [reflexivity|].
  simpl. rewrite length_app, IH. simpl. lia.
Qed.

(** Below [10 ^ w], a number is determined by its [w] padded digits. *)
Lemma zero_pad_inj w n m :
  n < 10 ^ N.of_nat w -> m < 10 ^ N.of_nat w ->
  Py.zero_pad w n = Py.zero_pad w m -> n = m.
Proof.
  revert n m. induction w as [|w IH]; intros n m Hn Hm Heq.
  - simpl in Hn, Hm. lia.
  - rewrite Nat2N.inj_succ, N.pow_succ_r' in Hn, Hm. simpl in Heq.
    apply app_inj_length in Heq as [Hhi Hlo]; [|by rewrite !length_zero_pad].
    injection Hlo as Hlo.
    apply digit_inj in Hlo; [|by apply N.mod_lt..].
    apply IH in Hhi; [|by apply N.Div0.div_lt_upper_bound..].
    rewrite (N.div_mod n 10), (N.div_mod m 10) by done. congruence.
Qed.

(** A padded number starts with a digit. *)
Lemma zero_pad_head w n :
  exists k rest, k < 10 /\ Py.zero_pad (S w) n = String (Py.digit k) rest.
Proof.
  revert n. induction w as [|w IH]; intros n.
  - exists (n mod 10), "". split; [by apply N.mod_lt|reflexivity].
  - destruct (IH (n / 10)) as (k & rest & Hk & Heq).
    exists k, (rest +:+ String (Py.digit (n mod 10)) ""). split; [done|].
    change (Py.zero_pad (S (S w)) n)
      with (Py.zero_pad (S w) (n / 10) +:+ String (Py.digit (n mod 10)) "").
    by rewrite Heq, app_cons.
Qed.

(** The format of the upload handler, directive by directive. *)
Lemma strftime_unique d :
  Py.strftime "%Y%m%d%H%M%S%f" d =
  Py.zero_pad 4 (Py.year d) +:+ Py.zero_pad 2 (Py.month d)
  +:+ Py.zero_pad 2 (Py.day d) +:+ Py.zero_pad 2 (Py.hour d)
  +:+ Py.zero_pad 2 (Py.minute d) +:+ Py.zero_pad 2 (Py.second d)
  +:+ Py.zero_pad 6 (Py.microsecond d) +:+ "".
Proof. reflexivity. Qed.

(** Distinct valid timestamps are printed differently. *)
Lemma strftime_inj d1 d2 :
  Py.valid_datetime d1 -> Py.valid_datetime d2 ->
  Py.strftime "%Y%m%d%H%M%S%f" d1 = Py.strftime "%Y%m%d%H%M%S%f" d2 ->
  d1 = d2.
Proof.
  intros V1 V2 Heq. rewrite !strftime_unique in Heq.
  destruct d1 as [y1 mo1 da1 h1 mi1 s1 u1], d2 as [y2 mo2 da2 h2 mi2 s2 u2].
  unfold Py.valid_datetime in V1, V2.
  cbn [Py.year Py.month Py.day Py.hour Py.minute Py.second Py.microsecond] in *.
  repeat (apply app_inj_length in Heq as [?%zero_pad_inj Heq];
          [|simpl; lia..|by rewrite !length_zero_pad]).
  congruence.
Qed.

(** The generated prefix starts with a digit, so the storage name neither
    is absolute nor starts with a dot. *)
Lemma strftime_head d :
  exists c rest,
    Py.strftime "%Y%m%d%H%M%S%f" d = String c rest
    /\ c <> "/"%char /\ c <> "."%char.
Proof.
  rewrite strftime_unique.
  destruct (zero_pad_head 3 (Py.year d)) as (k & rest & Hk & ->).
  eexists _, _. rewrite app_cons. split; [reflexivity|].
  by apply digit_not_special.
Qed.

End Timestamps.

(** ** Paths *)

Section Paths.
Context `{BsonObjectId}.

Lemma uploads_no_trailing_slash p : Py.endswith (p +:+ "uploads") "/" = false.
Proof.
  apply not_true_is_false. intros [q Hq]%endswith_spec.
  revert q Hq. induction p as [|a p IH]; intros q Hq.
  - change ("" +:+ "uploads") with "uploads" in Hq.
    do 7 (destruct q as [|? q]; [discriminate|];
          rewrite app_cons in Hq; injection Hq as _ Hq).
    destruct q; discriminate.
  - rewrite app_cons in Hq. destruct q as [|b q].
    + change ("" +:+ "/") with "/" in Hq. injection Hq as _ Hq.
      destruct p; discriminate.
    + rewrite app_cons in Hq. injection Hq as _ Hq. by apply (IH q).
Qed.

Lemma STORAGE_DIR_shape g : exists p, STORAGE_DIR g = p +:+ "uploads".
Proof.
  unfold STORAGE_DIR, Py.os_path_join.
  change (Py.startswith_char "uploads" "/") with false. cbv iota.
  destruct (_ || _).
  - by exists (cwd g).
  - exists (cwd g +:+ "/"). by rewrite app_assoc.
Qed.

(** Joining the storage directory with a name that does not start with the
    separator keeps the directory in front. *)
Lemma join_STORAGE_DIR g c rest :
  c <> "/"%char ->
  Py.os_path_join (STORAGE_DIR g) (String c rest)
  = STORAGE_DIR g +:+ "/" +:+ String c rest.
Proof.
  intros Hc. destruct (STORAGE_DIR_shape g) as [p ->].
  unfold Py.os_path_join. simpl Py.startswith_char.
  rewrite (bool_decide_eq_false_2 _ Hc), uploads_no_trailing_slash.
  rewrite bool_decide_eq_false_2; [done|].
  intros Heq. apply (f_equal String.length) in Heq.
  rewrite length_app in Heq. simpl in Heq. lia.
Qed.

(** A path below the root whose first character is neither the separator
    nor a dot leads to the entry of that name, or nowhere when the name has
    further components. *)
Lemma locate_below root c rest :
  c <> "/"%char -> c <> "."%char ->
  locate root (root +:+ "/" +:+ String c rest)
  = if has_slash (String c rest) then NoEntry else InRoot (String c rest).
Proof.
  intros Hs Hd. unfold locate.
  rewrite bool_decide_eq_false_2.
  2:{ intros Heq. apply (f_equal String.length) in Heq.
      rewrite length_app in Heq. simpl in Heq. lia. }
  rewrite <- app_assoc, strip_prefix_app.
  destruct (has_slash (String c rest)) eqn:Hh.
  - simpl in Hh. rewrite (bool_decide_eq_false_2 _ Hs) in Hh. simpl in Hh.
    destruct (components_slash c rest Hs Hh) as (x & y & ys & ->).
    simpl. rewrite !bool_decide_eq_false_2; [done|..]; intros [=]; done.
  - rewrite (components_no_slash _ Hh).
    simpl. rewrite !bool_decide_eq_false_2; [done|..]; intros [=]; done.
Qed.

Lemma save_name_head (e : Env) file :
  exists c rest, save_name e file = String c rest
                 /\ c <> "/"%char /\ c <> "."%char.
Proof.
  unfold save_name. destruct (strftime_head (now e)) as (c & rest & -> & Hc).
  eexists _, _. by rewrite app_cons.
Qed.

(** The path of an upload is the storage directory, a separator, and the
    generated name. *)
Lemma save_path_eq g (e : Env) file :
  save_path g e file = STORAGE_DIR g +:+ "/" +:+ save_name e file.
Proof.
  unfold save_path. destruct (save_name_head e file) as (c & rest & -> & Hc & _).
  by apply join_STORAGE_DIR.
Qed.

Lemma locate_save_path g (e : Env) file :
  locate (STORAGE_DIR g) (save_path g e file)
  = if has_slash (save_name e file) then NoEntry
    else InRoot (save_name e file).
Proof.
  rewrite save_path_eq.
  destruct (save_name_head e file) as (c & rest & -> & Hs & Hd).
  by apply locate_below.
Qed.

End Paths.

(** ** The handlers, case by case *)

Section Handlers.
Context `{BsonObjectId}.
Implicit Types (g : Globals) (e : Env) (w : World) (file : UploadFile).

(** The block that stores to disk leaves the database alone. *)
Lemma store_to_disk_mongo g e file w :
  mongo (snd (store_to_disk g e file w)) = mongo w.
Proof.
  unfold store_to_disk, bind, open_wb, f_write, put, modify, ret, raise.
  destruct (disk e); try reflexivity;
    destruct (locate _ _); try reflexivity;
    destruct (elsewhere w !! _) as [[]|]; reflexivity.
Qed.

(** When it returns, the whole content is the file of the generated name,
    a direct entry of the storage directory, and nothing else changed. *)
Lemma store_to_disk_ok g e file w w1 :
  store_to_disk g e file w = (inr tt, w1) ->
  disk e = NoFault /\ has_slash (save_name e file) = false
  /\ w1 = set_files (<[save_name e file := body file]> (files w)) w.
Proof.
  unfold store_to_disk, bind, open_wb, f_write, put, modify, ret, raise.
  rewrite locate_save_path.
  destruct (disk e); [|discriminate|];
    destruct (has_slash (save_name e file)); try discriminate.
  intros [= <-]. repeat split. unfold set_files. simpl.
  by rewrite insert_insert_eq.
Qed.

(** Whatever happens, the block writes nothing outside the storage
    directory. *)
Lemma store_to_disk_elsewhere g e file w :
  elsewhere (snd (store_to_disk g e file w)) = elsewhere w.
Proof.
  unfold store_to_disk, bind, open_wb, f_write, put, modify, ret, raise.
  rewrite locate_save_path.
  destruct (disk e); try reflexivity;
    destruct (has_slash (save_name e file)); reflexivity.
Qed.

Lemma create_document_files g e name data w :
  files (snd (create_document g e name data w)) = files w
  /\ elsewhere (snd (create_document g e name data w)) = elsewhere w.
Proof.
  unfold create_document, raise.
  destruct (db g), (db_error e); try done.
  destruct (default ∅ (mongo w !! name) !! new_oid e); done.
Qed.

(** The upload handler with its sequencing written out. *)
Lemma upload_model_unfold g e file w :
  upload_model g e file w =
  if allowed_extension (Py.lower (filename file)) then
    match store_to_disk g e file w with
    | (inl ex, w1) => (inl ex, w1)
    | (inr _, w1) =>
        match create_document g e "asset" (asset_fields g e file) w1 with
        | (inl ex, w2) => (inl ex, w2)
        | (inr doc_id, w2) =>
            (inr (mk_UploadResponse doc_id ("/files/" +:+ save_name e file)),
             w2)
        end
    end
  else
    (inl (HTTPException 400 "Only .glb, .gltf, .usdz files are supported"), w).
Proof.
  unfold upload_model, bind, ret, raise.
  destruct (allowed_extension _); reflexivity.
Qed.

(** [create_document] on the asset collection, written out. *)
Lemma create_document_unfold g e data w :
  create_document g e "asset" data w =
  match db g, db_error e, assets w !! new_oid e with
  | None, _, _ => (inl (Exception "Database not available"), w)
  | Some _, Some msg, _ => (inl (Exception msg), w)
  | Some _, None, Some _ => (inl (Exception "DuplicateKeyError"), w)
  | Some _, None, None =>
      (inr (ObjectId_str (new_oid e)),
       set_mongo
         (<["asset" := <[new_oid e := <["created_at" := VDate (now e)]> data]>
                         (assets w)]> (mongo w)) w)
  end.
Proof.
  unfold create_document, raise, assets.
  destruct (db g), (db_error e); reflexivity.
Qed.

(** A successful upload, spelled out. *)
Lemma upload_model_ok g e file w resp w' :
  upload_model g e file w = (inr resp, w') ->
  allowed_extension (Py.lower (filename file)) = true
  /\ has_slash (save_name e file) = false
  /\ disk e = NoFault
  /\ is_Some (db g) /\ db_error e = None
  /\ assets w !! new_oid e = None
  /\ resp = mk_UploadResponse (ObjectId_str (new_oid e))
                              ("/files/" +:+ save_name e file)
  /\ w' = mk_World (<[save_name e file := body file]> (files w))
                   (elsewhere w)
                   (<["asset" := <[new_oid e := asset_record g e file]>
                                   (assets w)]> (mongo w)).
Proof.
  rewrite upload_model_unfold.
  destruct (allowed_extension _); [|discriminate].
  destruct (store_to_disk g e file w) as [[ex|[]] w1] eqn:Hs;
    [discriminate|].
  apply store_to_disk_ok in Hs as (Hd & Hn & ->).
  rewrite create_document_unfold.
  change (assets (set_files _ w)) with (assets w).
  destruct (db g) as [d|]; [|discriminate].
  destruct (db_error e); [discriminate|].
  destruct (assets w !! new_oid e) eqn:Hl; [discriminate|].
  intros [= <- <-]. by repeat split.
Qed.

(** In every outcome of an upload the database is as before, or holds one
    more record under an identifier that was free. *)
Lemma upload_model_mongo g e file w :
  mongo (snd (upload_model g e file w)) = mongo w
  \/ (assets w !! new_oid e = None
      /\ fst (store_to_disk g e file w) = inr tt
      /\ mongo (snd (upload_model g e file w))
         = <["asset" := <[new_oid e := asset_record g e file]> (assets w)]>
             (mongo w)).
Proof.
  rewrite upload_model_unfold.
  destruct (allowed_extension _); [|by left].
  pose proof (store_to_disk_mongo g e file w) as Hm.
  destruct (store_to_disk g e file w) as [[ex|[]] w1]; simpl in Hm; [by left|].
  rewrite create_document_unfold.
  assert (assets w1 = assets w) as -> by (unfold assets; by rewrite Hm).
  destruct (db g) as [d|]; [|by left].
  destruct (db_error e); [by left|].
  destruct (assets w !! new_oid e) eqn:Hl; [by left|].
  right. simpl. by rewrite Hm.
Qed.

End Handlers.

(** ** The hexadecimal identifiers form an instance *)

Lemma unhex_byte_hex b :
  Hex.unhex_byte (Hex.hex_digit (N_of_ascii b / 16))
                 (Hex.hex_digit (N_of_ascii b mod 16)) = Some b.
Proof. destruct b as [[] [] [] [] [] [] [] []]; vm_compute; reflexivity. Qed.

Lemma unhex_hex bs : Hex.unhex (Hex.hex bs) = Some bs.
Proof.
  induction bs as [|b bs IH]; [reflexivity|].
  change (Hex.unhex (Hex.hex (b :: bs)))
    with (match Hex.unhex_byte (Hex.hex_digit (N_of_ascii b / 16))
                               (Hex.hex_digit (N_of_ascii b mod 16)),
                Hex.unhex (Hex.hex bs) with
          | Some b', Some bs' => Some (b' :: bs')
          | _, _ => None
          end).
  by rewrite unhex_byte_hex, IH.
Qed.

Lemma length_hex bs : String.length (Hex.hex bs) = (2 * length bs)%nat.
Proof.
  induction bs as [|b bs IH]; [reflexivity|].
  unfold Hex.hex in *. simpl in *. lia.
Qed.

Lemma twelve_vec_to_list (o : vec ascii 12) :
  Hex.twelve (vec_to_list o) = Some o.
Proof. inv_vec o. intros. reflexivity. Qed.

(** An identifier printed in hexadecimal is read back as itself. *)
Lemma hex_parse_str (o : vec ascii 12) : Hex.parse (Hex.str o) = Some o.
Proof.
  unfold Hex.parse, Hex.str.
  rewrite length_hex, length_vec_to_list, bool_decide_eq_true_2 by done.
  rewrite unhex_hex. apply twelve_vec_to_list.
Qed.

Definition hex_object_id : BsonObjectId := {|
  ObjectId := vec ascii 12;
  ObjectId_eq_dec := _;
  ObjectId_countable := inj_countable vec_to_list Hex.twelve twelve_vec_to_list;
  ObjectId_parse := Hex.parse;
  ObjectId_str := Hex.str;
  ObjectId_parse_str := hex_parse_str
|}.

Example hex_parse_ex :
  Hex.parse "zzzzzzzzzzzzzzzzzzzzzzzz" = None
  /\ Hex.parse "65F1a2b3c4d5e6f708192a3b"
     = Some [# "101"; "241"; "162"; "179"; "196"; "213";
               "230"; "247"; "008"; "025"; "042"; "059"]%char
  /\ Hex.parse "65f1a2b3" = None.
Proof. repeat split; vm_compute; reflexivity. Qed.

(** ** Extensions *)

Lemma has_dot_app s t : has_dot (s +:+ t) = has_dot s || has_dot t.
Proof.
  induction s as [|a s IH]; [reflexivity|].
  rewrite app_cons. simpl. by rewrite IH, orb_assoc.
Qed.

(** The extension of a name is a suffix of the name. *)
Lemma extension_suffix s : exists p, s = p +:+ extension s.
Proof.
  induction s as [|a s [p Hp]]; [by exists ""|].
  simpl. destruct (has_dot s).
  - exists (String a p). by rewrite app_cons, <- Hp.
  - case_bool_decide; [by exists ""|].
    exists (String a s). by rewrite app_nil_r.
Qed.

Lemma extension_app_dot p x :
  has_dot x = false -> extension (p +:+ String "." x) = String "." x.
Proof.
  intros Hx. induction p as [|a p IH].
  - change ("" +:+ String "." x) with (String "." x). simpl. by rewrite Hx.
  - rewrite app_cons. simpl. rewrite has_dot_app. simpl.
    by rewrite orb_true_r.
Qed.

(** For a suffix made of a dot and dot-free characters, ending with the
    suffix and having it as extension are the same. *)
Lemma endswith_extension s x :
  has_dot x = false ->
  Py.endswith s (String "." x) = true <-> extension s = String "." x.
Proof.
  intros Hx. rewrite endswith_spec. split.
  - intros [p ->]. by apply extension_app_dot.
  - intros Heq. destruct (extension_suffix s) as [p Hp].
    exists p. by rewrite <- Heq.
Qed.

(** The test of the upload handler accepts exactly the names whose
    extension is one of the three supported ones. *)
Lemma allowed_extension_spec s :
  allowed_extension s = true <-> extension s ∈ supported_extensions.
Proof.
  unfold allowed_extension, supported_extensions.
  rewrite !orb_true_iff, !elem_of_cons, elem_of_nil.
  rewrite !endswith_extension by reflexivity. tauto.
Qed.

(** ** Lookups and runs *)

Section Lookups.
Context `{BsonObjectId}.
Implicit Types (g : Globals) (e : Env) (w : World) (file : UploadFile).

(** [get_asset], decision by decision.  A document that [find_one] returns
    carries its [_id], so it is never an empty dictionary. *)
Lemma get_asset_unfold g e id w :
  get_asset g e id w =
  match ObjectId_parse id with
  | None => (inl (HTTPException 400 "Invalid id"), w)
  | Some oid =>
      match db g, db_error e, assets w !! oid with
      | None, _, _ =>
          (inl (Exception "TypeError: 'NoneType' object is not subscriptable"),
           w)
      | Some _, Some msg, _ => (inl (Exception msg), w)
      | Some _, None, None =>
          (inl (HTTPException 404 "Not found or expired"), w)
      | Some _, None, Some doc =>
          (inr (mk_AssetResponse id (dict_get doc "url")), w)
      end
  end.
Proof.
  unfold get_asset, bind, find_one, raise, ret, assets.
  destruct (ObjectId_parse id) as [oid|]; [|reflexivity].
  destruct (db g), (db_error e); try reflexivity.
  destruct (default ∅ (mongo w !! "asset") !! oid) as [doc|]; [|reflexivity].
  simpl. rewrite bool_decide_eq_false_2 by apply insert_non_empty.
  unfold dict_get. by rewrite lookup_insert_ne.
Qed.

Lemma get_asset_world g e id w : snd (get_asset g e id w) = w.
Proof.
  rewrite get_asset_unfold.
  destruct (ObjectId_parse id) as [oid|]; [|reflexivity].
  destruct (db g), (db_error e), (assets w !! oid); reflexivity.
Qed.

Lemma serve_file_world g name w : snd (serve_file g name w) = w.
Proof.
  unfold serve_file, FileResponse.
  destruct (negb _); [reflexivity|].
  destruct (locate _ _); try reflexivity.
  - destruct (files w !! _); reflexivity.
  - destruct (elsewhere w !! _) as [[]|]; reflexivity.
Qed.

Lemma test_database_world g e w : snd (test_database g e w) = w.
Proof.
  unfold test_database.
  match goal with
  | |- snd (let (_, _) := ?x in _) = _ => destruct x as [[?|?] ?]
  end; reflexivity.
Qed.

(** No request removes or replaces an asset record. *)
Lemma handle_assets g e r w oid doc :
  assets w !! oid = Some doc -> assets (handle g e r w) !! oid = Some doc.
Proof.
  intros Hdoc. destruct r as [|file|name|id|]; simpl.
  - done.
  - destruct (upload_model_mongo g e file w) as [Hm|(Hfree & _ & Hm)];
      unfold assets in *; rewrite Hm; [done|].
    rewrite lookup_insert_eq. simpl.
    rewrite lookup_insert_ne; [done|]. congruence.
  - by rewrite serve_file_world.
  - by rewrite get_asset_world.
  - by rewrite test_database_world.
Qed.

Lemma serve_assets g rs w oid doc :
  assets w !! oid = Some doc -> assets (serve g rs w) !! oid = Some doc.
Proof.
  revert w. induction rs as [|[e r] rs IH]; intros w Hdoc; [done|].
  simpl. apply IH. by apply handle_assets.
Qed.

Lemma asset_record_url g e file :
  asset_record g e file !! "url" = Some (VStr ("/files/" +:+ save_name e file)).
Proof.
  unfold asset_record, asset_fields.
  do 4 (rewrite lookup_insert_ne by done). by rewrite lookup_insert_eq.
Qed.

Lemma asset_record_size_bytes g e file :
  asset_record g e file !! "size_bytes"
  = Some (VInt (Z.of_nat (length (body file)))).
Proof.
  unfold asset_record, asset_fields.
  do 3 (rewrite lookup_insert_ne by done). by rewrite lookup_insert_eq.
Qed.

Lemma asset_record_storage_path g e file :
  asset_record g e file !! "storage_path" = Some (VStr (save_path g e file)).
Proof.
  unfold asset_record, asset_fields.
  do 5 (rewrite lookup_insert_ne by done). by rewrite lookup_insert_eq.
Qed.

(** After a successful upload the record is in the collection and the
    content is the file of the generated name. *)
Lemma upload_model_stored g e file w resp w' :
  upload_model g e file w = (inr resp, w') ->
  assets w' !! new_oid e = Some (asset_record g e file)
  /\ files w' !! save_name e file = Some (body file).
Proof.
  intros (_ & _ & _ & _ & _ & _ & _ & ->)%upload_model_ok.
  unfold assets. simpl. split.
  - rewrite lookup_insert_eq. simpl. by rewrite lookup_insert_eq.
  - by rewrite lookup_insert_eq.
Qed.


End Lookups.

(** ** The properties of the service *)

Section Claims.
Context `{BsonObjectId}.
Implicit Types (g : Globals) (e : Env) (w : World) (file : UploadFile).

(** C1: the identifier a successful upload returns resolves, in the world
    the upload leaves and after any further requests to the service, by
    [GET /asset/{id}] to a 200 response that carries the same identifier and
    the [url] of the upload response, whenever the database answers. *)
Theorem upload_id_resolves g e file w resp w' rs e' :
  upload_model g e file w = (inr resp, w') ->
  db_error e' = None ->
  get_asset g e' (r_id resp) (serve g rs w')
  = (inr (mk_AssetResponse (r_id resp) (VStr (r_url resp))), serve g rs w').
Proof.
  intros Hup Hdb.
  destruct (upload_model_stored _ _ _ _ _ _ Hup) as [Hrec _].
  apply upload_model_ok in Hup as (_ & _ & _ & [d Hd] & _ & _ & -> & _).
  apply (serve_assets g rs) in Hrec.
  rewrite get_asset_unfold. simpl.
  rewrite ObjectId_parse_str, Hd, Hdb, Hrec.
  unfold dict_get. by rewrite asset_record_url.
Qed.

(** C3: when the extension of the lower-cased file name is not [.glb],
    [.gltf] or [.usdz], [POST /upload] answers 400 and leaves the world as
    it was: no file and no record is created. *)
Theorem unsupported_extension_rejected g e file w :
  extension (Py.lower (filename file)) ∉ supported_extensions ->
  status (fst (upload_model g e file w)) = 400%nat
  /\ snd (upload_model g e file w) = w.
Proof.
  intros Hext. rewrite upload_model_unfold.
  destruct (allowed_extension _) eqn:Hok; [|done].
  by apply allowed_extension_spec in Hok.
Qed.

(** C4: when the block that stores the content to disk raises, the upload
    raises as well and the database holds exactly the records it held
    before. *)
Theorem failed_write_leaves_no_record g e file w ex :
  fst (store_to_disk g e file w) = inl ex ->
  (exists ex', fst (upload_model g e file w) = inl ex')
  /\ mongo (snd (upload_model g e file w)) = mongo w.
Proof.
  intros Hfail. rewrite upload_model_unfold.
  destruct (allowed_extension _); [|by eauto].
  pose proof (store_to_disk_mongo g e file w) as Hm.
  destruct (store_to_disk g e file w) as [[ex'|[]] w1]; simpl in *;
    [by eauto|discriminate].
Qed.

(** A record is only ever added to a world in which the whole content has
    been written under the generated name. *)
Lemma record_implies_written g e file w :
  mongo (snd (upload_model g e file w)) <> mongo w ->
  files (snd (upload_model g e file w)) !! save_name e file = Some (body file).
Proof.
  intros Hne.
  destruct (upload_model_mongo g e file w) as [Hm|(_ & Hst & _)]; [done|].
  rewrite upload_model_unfold in *.
  destruct (allowed_extension _); [|done].
  destruct (store_to_disk g e file w) as [[ex|[]] w1] eqn:Hs; [done|].
  apply store_to_disk_ok in Hs as (_ & _ & ->).
  pose proof (create_document_files g e "asset" (asset_fields g e file)
                (set_files (<[save_name e file:=body file]> (files w)) w))
    as [Hf _].
  destruct (create_document _ _ _ _ _) as [[?|?] w2]; simpl in *;
    rewrite Hf; apply lookup_insert_eq.
Qed.

(** C5: [GET /asset/{id}] answers 400 for an identifier that does not
    parse, and 404 for one that parses and has no record in the collection
    of a database that answers. *)
Theorem get_asset_invalid_or_missing g e w id :
  (ObjectId_parse id = None ->
   get_asset g e id w = (inl (HTTPException 400 "Invalid id"), w))
  /\ (forall oid,
        ObjectId_parse id = Some oid ->
        is_Some (db g) -> db_error e = None -> assets w !! oid = None ->
        get_asset g e id w
        = (inl (HTTPException 404 "Not found or expired"), w)).
Proof.
  split.
  - intros Hp. by rewrite get_asset_unfold, Hp.
  - intros oid Hp [d Hd] Hdb Hnone.
    by rewrite get_asset_unfold, Hp, Hd, Hdb, Hnone.
Qed.

(** C6: two uploads of one file name at distinct timestamps are stored
    under distinct names, each the printed timestamp, an underscore and the
    file name; when both succeed, both files are there with their own
    content. *)
Theorem distinct_timestamps_distinct_files g e1 e2 file1 file2 w :
  filename file1 = filename file2 ->
  Py.valid_datetime (now e1) -> Py.valid_datetime (now e2) ->
  now e1 <> now e2 ->
  save_name e1 file1
  = Py.strftime "%Y%m%d%H%M%S%f" (now e1) +:+ "_" +:+ filename file1
  /\ save_name e1 file1 <> save_name e2 file2
  /\ forall r1 w1 r2 w2,
       upload_model g e1 file1 w = (inr r1, w1) ->
       upload_model g e2 file2 w1 = (inr r2, w2) ->
       r_url r1 <> r_url r2
       /\ files w2 !! save_name e1 file1 = Some (body file1)
       /\ files w2 !! save_name e2 file2 = Some (body file2).
Proof.
  intros Hname V1 V2 Hnow.
  assert (save_name e1 file1 <> save_name e2 file2) as Hne.
  { unfold save_name. rewrite Hname. intros Heq.
    apply app_inj_r in Heq. by apply strftime_inj in Heq. }
  split; [reflexivity|]. split; [done|].
  intros r1 w1 r2 w2 Hup1 Hup2.
  destruct (upload_model_stored _ _ _ _ _ _ Hup1) as [_ Hf1].
  destruct (upload_model_stored _ _ _ _ _ _ Hup2) as [_ Hf2].
  apply upload_model_ok in Hup1 as (_ & _ & _ & _ & _ & _ & -> & _).
  apply upload_model_ok in Hup2 as (_ & _ & _ & _ & _ & _ & -> & ->).
  simpl in *. repeat split.
  - intros Heq. by apply (inj (String.app "/files/")) in Heq.
  - by rewrite lookup_insert_ne.
  - done.
Qed.

(** C7: after a successful upload, the record stored under the returned
    identifier names the path of a file of the storage directory, and its
    [size_bytes] is the number of bytes of that file. *)
Theorem size_bytes_is_stored_length g e file w resp w' :
  upload_model g e file w = (inr resp, w') ->
  exists oid doc path name content,
    ObjectId_parse (r_id resp) = Some oid
    /\ assets w' !! oid = Some doc
    /\ doc !! "storage_path" = Some (VStr path)
    /\ locate (STORAGE_DIR g) path = InRoot name
    /\ files w' !! name = Some content
    /\ doc !! "size_bytes" = Some (VInt (Z.of_nat (length content))).
Proof.
  intros Hup.
  destruct (upload_model_stored _ _ _ _ _ _ Hup) as [Hrec Hfile].
  apply upload_model_ok in Hup as (_ & Hn & _ & _ & _ & _ & -> & _).
  exists (new_oid e), (asset_record g e file), (save_path g e file),
    (save_name e file), (body file). simpl.
  rewrite ObjectId_parse_str, locate_save_path, Hn.
  repeat split;
    auto using asset_record_storage_path, asset_record_size_bytes.
Qed.

(** C8: whatever the file name is, the path an upload writes to is the
    storage directory, a separator and the generated name; it never leads
    out of the storage directory; nothing outside the directory changes;
    and the only entry of the directory that can change is the generated
    name taken as a single component. *)
Theorem upload_writes_inside_storage_dir g e file w :
  save_path g e file = STORAGE_DIR g +:+ "/" +:+ save_name e file
  /\ locate (STORAGE_DIR g) (save_path g e file) <> Outside
  /\ elsewhere (snd (upload_model g e file w)) = elsewhere w
  /\ forall name,
       files (snd (upload_model g e file w)) !! name <> files w !! name ->
       name = save_name e file
       /\ locate (STORAGE_DIR g) (save_path g e file) = InRoot name.
Proof.
  split; [apply save_path_eq|].
  split; [rewrite locate_save_path; by destruct (has_slash _)|].
  rewrite upload_model_unfold.
  destruct (allowed_extension _); [|by split].
  pose proof (store_to_disk_elsewhere g e file w) as He.
  assert (forall name,
    files (snd (store_to_disk g e file w)) !! name <> files w !! name ->
    name = save_name e file
    /\ locate (STORAGE_DIR g) (save_path g e file) = InRoot name) as Hf.
  { intros name.
    unfold store_to_disk, bind, open_wb, f_write, put, modify, ret, raise.
    rewrite locate_save_path.
    destruct (disk e), (has_slash (save_name e file)); simpl; try done;
      intros Hne;
      (destruct (decide (name = save_name e file)) as [->|Hn]; [done|]);
      by rewrite ?lookup_insert_ne in Hne. }
  destruct (store_to_disk g e file w) as [[ex|[]] w1]; simpl in *; [done|].
  pose proof (create_document_files g e "asset" (asset_fields g e file) w1)
    as [Hcf Hce].
  destruct (create_document _ _ _ _ _) as [[?|?] w2]; simpl in *;
    rewrite Hcf, Hce; done.
Qed.

(** C9: [GET /test] returns its dictionary, hence status 200, whatever the
    state of the database is, and the [database] field reads
    [Connected & Working] exactly when the database can be reached. *)
Theorem test_database_always_200 g e w :
  status (fst (test_database g e w)) = 200%nat
  /\ exists r,
       test_database g e w = (inr r, w)
       /\ (database r = "✅ Connected & Working"
           <-> database_reachable g e = true)
       /\ (db g = None -> database r = "⚠️  Available but not initialized").
Proof.
  unfold test_database, database_reachable, list_collection_names,
    name_or_default, try_except, bind, ret, raise, modify,
    set_database, set_database_url, set_database_name, set_collections.
  destruct (db g) as [[[|v|msg]]|]; simpl;
    try destruct (db_error e); simpl;
    (split; [reflexivity|]); eexists; (split; [reflexivity|]); simpl;
    (split; [split; [try done; intros Heq; vm_compute in Heq; discriminate
                    |try done]
            |try done]).
Qed.

(** C10: when the document found for a well-formed identifier has no
    [url] field, [GET /asset/{id}] still answers 200, with the identifier as
    it was given and a null [url]. *)
Theorem get_asset_without_url g e w id oid doc :
  ObjectId_parse id = Some oid ->
  is_Some (db g) -> db_error e = None ->
  assets w !! oid = Some doc ->
  doc !! "url" = None ->
  get_asset g e id w = (inr (mk_AssetResponse id VNull), w)
  /\ status (fst (get_asset g e id w)) = 200%nat.
Proof.
  intros Hp [d Hd] Hdb Hdoc Hurl.
  rewrite get_asset_unfold, Hp, Hd, Hdb, Hdoc.
  unfold dict_get. by rewrite Hurl.
Qed.

End Claims.

(** ** The properties on a concrete service *)

Module Sample.

Definition oid_a : vec ascii 12 :=
  [# "101"; "241"; "162"; "179"; "196"; "213";
     "230"; "247"; "008"; "025"; "042"; "059"]%char.

Definition oid_b : vec ascii 12 :=
  [# "101"; "241"; "162"; "179"; "196"; "213";
     "230"; "247"; "008"; "025"; "042"; "060"]%char.

Definition g0 : Globals :=
  mk_Globals "/srv/app" (Some (mk_Database (AttrValue "holoshare"))).

Definition e0 : Env (H := hex_object_id) :=
  mk_Env (H := hex_object_id) (Py.mk_datetime 2024 3 7 9 5 0 1234)
    NoFault None oid_a (fun _ => None).

(** One microsecond later, with the next identifier. *)
Definition e1 : Env (H := hex_object_id) :=
  mk_Env (H := hex_object_id) (Py.mk_datetime 2024 3 7 9 5 0 1235)
    NoFault None oid_b (fun _ => None).

(** A request during which the disk fills up after two bytes. *)
Definition e_full : Env (H := hex_object_id) :=
  mk_Env (H := hex_object_id) (Py.mk_datetime 2024 3 7 9 5 0 1234)
    (WriteFails 2 "OSError: No space left on device") None oid_a
    (fun _ => None).

Definition file0 : UploadFile :=
  mk_UploadFile "Model.GLB" (Some "model/gltf-binary") [x01; x02; x03].

Definition file1 : UploadFile :=
  mk_UploadFile "Model.GLB" None [x04; x05].

Definition file_txt : UploadFile :=
  mk_UploadFile "model.glb.txt" (Some "text/plain") [x01].

Definition w0 : World (H := hex_object_id) :=
  mk_World (H := hex_object_id) ∅ ∅ ∅.

Definition resp0 : UploadResponse :=
  mk_UploadResponse "65f1a2b3c4d5e6f708192a3b"
    "/files/20240307090500001234_Model.GLB".

Definition w1 : World (H := hex_object_id) :=
  snd (upload_model g0 e0 file0 w0).

Definition resp1 : UploadResponse :=
  mk_UploadResponse "65f1a2b3c4d5e6f708192a3c"
    "/files/20240307090500001235_Model.GLB".

Definition w2 : World (H := hex_object_id) :=
  snd (upload_model g0 e1 file1 w1).

(** A collection with a record that has no [url]. *)
Definition doc_plain : gmap string (Value (H := hex_object_id)) :=
  {["filename" := VStr "old.glb"]}.

Definition w_plain : World (H := hex_object_id) :=
  mk_World (H := hex_object_id) ∅ ∅ {["asset" := {[oid_a := doc_plain]}]}.

Lemma upload0_ok : upload_model g0 e0 file0 w0 = (inr resp0, w1).
Proof.
  unfold w1. rewrite (surjective_pairing (upload_model g0 e0 file0 w0)) at 1.
  by f_equal.
Qed.

Lemma upload1_ok : upload_model g0 e1 file1 w1 = (inr resp1, w2).
Proof.
  unfold w2. rewrite (surjective_pairing (upload_model g0 e1 file1 w1)) at 1.
  by f_equal.
Qed.


Lemma upload_id_resolves_witness :
  get_asset g0 e1 "65f1a2b3c4d5e6f708192a3b"
    (serve g0 [(e1, PostUpload file1); (e0, GetTest)] w1)
  = (inr (mk_AssetResponse "65f1a2b3c4d5e6f708192a3b"
            (VStr "/files/20240307090500001234_Model.GLB")),
     serve g0 [(e1, PostUpload file1); (e0, GetTest)] w1).
Proof.
  exact (upload_id_resolves g0 e0 file0 w0 resp0 w1
           [(e1, PostUpload file1); (e0, GetTest)] e1 upload0_ok eq_refl).
Defined.

Lemma unsupported_extension_rejected_witness :
  (extension (Py.lower "model.glb.txt") ∉ supported_extensions)
  /\ status (fst (upload_model g0 e0 file_txt w0)) = 400%nat
  /\ snd (upload_model g0 e0 file_txt w0) = w0.
Proof.
  assert (extension (Py.lower "model.glb.txt") ∉ supported_extensions) as Hext
    by compute_done.
  split; [exact Hext|].
  exact (unsupported_extension_rejected g0 e0 file_txt w0 Hext).
Defined.

Lemma failed_write_leaves_no_record_witness :
  fst (store_to_disk g0 e_full file0 w0)
  = inl (Exception "OSError: No space left on device")
  /\ (exists ex', fst (upload_model g0 e_full file0 w0) = inl ex')
  /\ mongo (snd (upload_model g0 e_full file0 w0)) = mongo w0.
Proof.
  split; [reflexivity|].
  exact (failed_write_leaves_no_record g0 e_full file0 w0 _ eq_refl).
Defined.

Lemma get_asset_invalid_or_missing_witness :
  get_asset g0 e0 "not-an-id" w1
  = (inl (HTTPException 400 "Invalid id"), w1)
  /\ get_asset g0 e0 "65f1a2b3c4d5e6f708192a3c" w1
     = (inl (HTTPException 404 "Not found or expired"), w1).
Proof.
  split.
  - exact (proj1 (get_asset_invalid_or_missing g0 e0 w1 "not-an-id") eq_refl).
  - refine (proj2 (get_asset_invalid_or_missing g0 e0 w1
                     "65f1a2b3c4d5e6f708192a3c") oid_b eq_refl _ eq_refl _).
    + eexists; reflexivity.
    + reflexivity.
Defined.


Lemma distinct_timestamps_distinct_files_witness :
  save_name e0 file0 = "20240307090500001234_Model.GLB"
  /\ save_name e0 file0 <> save_name e1 file1
  /\ files w2 !! save_name e0 file0 = Some [x01; x02; x03]
  /\ files w2 !! save_name e1 file1 = Some [x04; x05].
Proof.
  assert (Py.valid_datetime (now e0)) as V0
    by (unfold Py.valid_datetime; simpl; lia).
  assert (Py.valid_datetime (now e1)) as V1
    by (unfold Py.valid_datetime; simpl; lia).
  assert (now e0 <> now e1) as Hnow by discriminate.
  destruct (distinct_timestamps_distinct_files g0 e0 e1 file0 file1 w0
              eq_refl V0 V1 Hnow) as (Hform & Hne & Hboth).
  destruct (Hboth resp0 w1 resp1 w2 upload0_ok upload1_ok) as (_ & Hf0 & Hf1).
  split; [exact Hform|]. split; [exact Hne|]. split; [exact Hf0|exact Hf1].
Defined.

Lemma size_bytes_is_stored_length_witness :
  exists oid doc path name content,
    Hex.parse "65f1a2b3c4d5e6f708192a3b" = Some oid
    /\ assets w1 !! oid = Some doc
    /\ doc !! "storage_path" = Some (VStr path)
    /\ locate "/srv/app/uploads" path = InRoot name
    /\ files w1 !! name = Some content
    /\ doc !! "size_bytes" = Some (VInt (Z.of_nat (length content))).
Proof.
  exact (size_bytes_is_stored_length g0 e0 file0 w0 resp0 w1 upload0_ok).
Defined.

Lemma get_asset_without_url_witness :
  get_asset g0 e0 "65F1A2B3C4D5E6F708192A3B" w_plain
  = (inr (mk_AssetResponse "65F1A2B3C4D5E6F708192A3B" VNull), w_plain)
  /\ status (fst (get_asset g0 e0 "65F1A2B3C4D5E6F708192A3B" w_plain))
     = 200%nat.
Proof.
  refine (get_asset_without_url g0 e0 w_plain "65F1A2B3C4D5E6F708192A3B"
            oid_a doc_plain eq_refl _ eq_refl _ _).
  - eexists; reflexivity.
  - reflexivity.
  - reflexivity.
Defined.


(** The functions of the runtime on small inputs. *)
Example lower_ex : Py.lower "Model.GLB" = "model.glb".
Proof. reflexivity. Qed.

Example endswith_ex :
  Py.endswith "model.glb" ".glb" = true /\ Py.endswith "glb" ".glb" = false.
Proof. split; reflexivity. Qed.

Example extension_ex :
  extension "a.tar.gltf" = ".gltf" /\ extension ".usdz" = ".usdz"
  /\ extension "README" = "" /\ extension "model.glb." = ".".
Proof. repeat split. Qed.

Example strftime_ex :
  Py.strftime "%Y%m%d%H%M%S%f" (now e0) = "20240307090500001234".
Proof. reflexivity. Qed.

Example os_path_join_ex :
  STORAGE_DIR g0 = "/srv/app/uploads"
  /\ Py.os_path_join "/srv/app/uploads" "/etc/passwd" = "/etc/passwd"
  /\ save_path g0 e0 file0 = "/srv/app/uploads/20240307090500001234_Model.GLB".
Proof. repeat split. Qed.

(** A file name that points upwards is stored nowhere: the path has a
    first component that is no directory, and the upload fails. *)
Example upload_dotdot_ex :
  let file := mk_UploadFile "../../etc/cron.glb" None [x01] in
  save_path g0 e0 file
  = "/srv/app/uploads/20240307090500001234_../../etc/cron.glb"
  /\ locate (STORAGE_DIR g0) (save_path g0 e0 file) = NoEntry
  /\ fst (upload_model g0 e0 file w0) = inl (Exception "FileNotFoundError").
Proof. repeat split. Qed.

(** The diagnostic endpoint without a database, and with one that fails. *)
Example test_database_ex :
  let shown (r : Result TestResponse) :=
    match r with
    | inr r => (database r, collections r, database_name r)
    | inl _ => ("", [], None)
    end in
  shown (fst (test_database (mk_Globals "/srv/app" None) e0 w0))
  = ("⚠️  Available but not initialized", [], Some "❌ Not Set")
  /\ shown (fst (test_database g0 e0 w1))
     = ("✅ Connected & Working", ["asset"], Some "❌ Not Set")
  /\ shown (fst (test_database g0
                   (mk_Env (H := hex_object_id) (now e0) NoFault
                      (Some "ServerSelectionTimeoutError") oid_a
                      (fun _ => None))
                   w1))
     = ("⚠️  Connected but Error: ServerSelectionTimeoutError", [],
        Some "❌ Not Set").
Proof. repeat split; vm_compute; reflexivity. Qed.

End Sample.

(** * Further properties of the handlers *)

(** ** Storage names *)

Definition is_digit_char (c : ascii) : bool :=
  ((48 <=? N_of_ascii c) && (N_of_ascii c <=? 57))%N.

Fixpoint all_digits (s : string) : bool :=
  match s with
  | "" => true
  | String c s' => is_digit_char c && all_digits s'
  end.

Lemma all_digits_app s t : all_digits (s +:+ t) = all_digits s && all_digits t.
Proof.
  induction s as [|a s IH]; [reflexivity|].
  rewrite app_cons. simpl. by rewrite IH, andb_assoc.
Qed.

Lemma is_digit_char_digit k : (k < 10)%N -> is_digit_char (Py.digit k) = true.
Proof.
  intros Hk. unfold is_digit_char. rewrite digit_code by done.
  apply andb_true_iff. split; apply N.leb_le; lia.
Qed.

Lemma all_digits_zero_pad w n : all_digits (Py.zero_pad w n) = true.
Proof.
  revert n. induction w as [|w IH]; intros n; [reflexivity|].
  simpl. rewrite all_digits_app, IH. simpl.
  rewrite is_digit_char_digit; [done|]. by apply N.mod_lt.
Qed.

Lemma all_digits_no_slash s : all_digits s = true -> has_slash s = false.
Proof.
  induction s as [|a s IH]; [done|]. simpl.
  intros [Ha Hs]%andb_true_iff. rewrite (IH Hs), orb_false_r.
  apply bool_decide_eq_false_2. intros ->. discriminate.
Qed.

Lemma all_digits_strftime d :
  all_digits (Py.strftime "%Y%m%d%H%M%S%f" d) = true.
Proof.
  rewrite strftime_unique, !all_digits_app, !all_digits_zero_pad. reflexivity.
Qed.

Lemma length_strftime d :
  String.length (Py.strftime "%Y%m%d%H%M%S%f" d) = 20%nat.
Proof.
  rewrite strftime_unique, !length_app, !length_zero_pad. reflexivity.
Qed.

Section More.
Context `{BsonObjectId}.
Implicit Types (g : Globals) (e : Env) (w : World) (file : UploadFile).

(** The generated name has a separator exactly when the file name has. *)
Lemma has_slash_save_name e file :
  has_slash (save_name e file) = has_slash (filename file).
Proof.
  unfold save_name. rewrite !has_slash_app.
  by rewrite (all_digits_no_slash _ (all_digits_strftime (now e))).
Qed.

Lemma digit_pretty k : (k < 10)%N -> Py.digit k = pretty_N_char k.
Proof.
  intros Hk.
  assert (k = 0 \/ k = 1 \/ k = 2 \/ k = 3 \/ k = 4 \/ k = 5 \/ k = 6
          \/ k = 7 \/ k = 8 \/ k = 9)%N as Hcases by lia.
  repeat (destruct Hcases as [->|Hcases]; [reflexivity|]). by subst.
Qed.

(** A year of four digits is printed the same with and without padding. *)
Lemma zero_pad_year y :
  (1000 <= y <= 9999)%N -> Py.zero_pad 4 y = pretty y.
Proof.
  intros Hy. unfold pretty, pretty_N.
  rewrite decide_False by lia.
  rewrite pretty_N_go_step by lia.
  rewrite pretty_N_go_step by (apply N.div_str_pos; lia).
  assert (10 <= y / 10 / 10)%N as H2.
  { apply N.div_le_lower_bound; [lia|].
    apply N.div_le_lower_bound; lia. }
  rewrite pretty_N_go_step by lia.
  rewrite pretty_N_go_step by (apply N.div_str_pos; lia).
  assert (y / 10 / 10 / 10 / 10 = 0)%N as ->.
  { apply N.div_small. repeat (apply N.Div0.div_lt_upper_bound). lia. }
  rewrite pretty_N_go_0.
  rewrite <- !digit_pretty by (by apply N.mod_lt).
  reflexivity.
Qed.

(** X14: at a timestamp whose year has four digits, the storage name of an
    upload is the year in decimal, the five two-digit fields and the six
    digits of the microsecond, twenty digits in all, then an underscore and
    the file name as the client sent it. *)
Theorem save_name_format e file :
  Py.valid_datetime (now e) ->
  (1000 <= Py.year (now e))%N ->
  exists stamp,
    save_name e file = stamp +:+ "_" +:+ filename file
    /\ stamp = pretty (Py.year (now e))
               +:+ Py.zero_pad 2 (Py.month (now e))
               +:+ Py.zero_pad 2 (Py.day (now e))
               +:+ Py.zero_pad 2 (Py.hour (now e))
               +:+ Py.zero_pad 2 (Py.minute (now e))
               +:+ Py.zero_pad 2 (Py.second (now e))
               +:+ Py.zero_pad 6 (Py.microsecond (now e))
    /\ String.length stamp = 20%nat
    /\ all_digits stamp = true
    /\ String.length (save_name e file)
       = (21 + String.length (filename file))%nat.
Proof.
  intros Hvalid Hyear.
  exists (Py.strftime "%Y%m%d%H%M%S%f" (now e)).
  split; [reflexivity|]. split.
  { rewrite strftime_unique, app_nil_r, <- zero_pad_year; [done|].
    unfold Py.valid_datetime in Hvalid. lia. }
  split; [apply length_strftime|].
  split; [apply all_digits_strftime|].
  unfold save_name. rewrite !length_app, length_strftime. simpl. lia.
Qed.

(** What the block raises is never an [HTTPException]. *)
Lemma store_to_disk_raises g e file w ex :
  fst (store_to_disk g e file w) = inl ex -> exists msg, ex = Exception msg.
Proof.
  unfold store_to_disk, bind, open_wb, f_write, put, modify, ret, raise.
  rewrite locate_save_path.
  destruct (disk e), (has_slash (save_name e file)); simpl;
    intros [= <-]; eauto.
Qed.

Lemma create_document_raises g e name data w ex :
  fst (create_document g e name data w) = inl ex ->
  exists msg, ex = Exception msg.
Proof.
  unfold create_document, raise.
  destruct (db g), (db_error e); simpl; try (intros [= <-]; eauto).
  destruct (default ∅ (mongo w !! name) !! new_oid e); simpl;
    intros [= <-]; eauto.
Qed.

Lemma create_document_fails_mongo g e name data w ex :
  fst (create_document g e name data w) = inl ex ->
  snd (create_document g e name data w) = w.
Proof.
  unfold create_document, raise.
  destruct (db g), (db_error e); simpl; try done.
  destruct (default ∅ (mongo w !! name) !! new_oid e); simpl; done.
Qed.

(** An upload that passes the extension test answers 200 or 500. *)
Lemma upload_model_allowed_status g e file w :
  allowed_extension (Py.lower (filename file)) = true ->
  status (fst (upload_model g e file w)) = 200%nat
  \/ status (fst (upload_model g e file w)) = 500%nat.
Proof.
  intros Hok. rewrite upload_model_unfold, Hok.
  pose proof (store_to_disk_raises g e file w) as Hs.
  destruct (store_to_disk g e file w) as [[ex|[]] w1]; simpl in *.
  - destruct (Hs ex eq_refl) as [msg ->]. by right.
  - pose proof (create_document_raises g e "asset"
                  (asset_fields g e file) w1) as Hc.
    destruct (create_document _ _ _ _ _) as [[ex|id] w2]; simpl in *.
    + destruct (Hc ex eq_refl) as [msg ->]. by right.
    + by left.
Qed.

(** X3: once the handler of [POST /upload] is called with the uploaded
    file, its answer is 200, 400 or 500, and 400 exactly when the extension
    of the lower-cased file name is not a supported one. *)
Theorem upload_400_iff_unsupported g e file w :
  (status (fst (upload_model g e file w)) = 200%nat
   \/ status (fst (upload_model g e file w)) = 400%nat
   \/ status (fst (upload_model g e file w)) = 500%nat)
  /\ (status (fst (upload_model g e file w)) = 400%nat
      <-> extension (Py.lower (filename file)) ∉ supported_extensions).
Proof.
  rewrite <- allowed_extension_spec.
  destruct (allowed_extension (Py.lower (filename file))) eqn:Hok.
  - destruct (upload_model_allowed_status g e file w Hok) as [Hs|Hs];
      rewrite Hs; (split; [tauto|]); split; try done; intros Hno; by destruct Hno.
  - rewrite upload_model_unfold, Hok. simpl.
    split; [tauto|]. split; [done|]. intros _. done.
Qed.

(** X4: an upload can only succeed when the extension is supported, the file
    name has no separator, the disk did not fail, there is a database that
    answers, and the generated identifier was free. *)
Theorem upload_success_requires g e file w resp w' :
  upload_model g e file w = (inr resp, w') ->
  allowed_extension (Py.lower (filename file)) = true
  /\ has_slash (filename file) = false
  /\ disk e = NoFault
  /\ is_Some (db g) /\ db_error e = None
  /\ assets w !! new_oid e = None.
Proof.
  intros Hup.
  apply upload_model_ok in Hup as (Hok & Hn & Hd & Hdb & He & Hfree & _).
  rewrite has_slash_save_name in Hn. done.
Qed.

(** X5: a file name with a path separator is never stored: the upload
    raises and the world is as before. *)
Theorem upload_separator_refused g e file w :
  has_slash (filename file) = true ->
  (exists ex, fst (upload_model g e file w) = inl ex)
  /\ snd (upload_model g e file w) = w.
Proof.
  intros Hs. rewrite upload_model_unfold.
  destruct (allowed_extension _); [|by eauto].
  unfold store_to_disk, bind, open_wb, f_write, put, modify, ret, raise.
  rewrite locate_save_path, has_slash_save_name, Hs.
  destruct (disk e); simpl; eauto.
Qed.

(** X6: the file is opened for writing without a check for an existing
    one.  When two uploads of one file name get the same timestamp and both
    succeed, they share one url, the file holds the bytes of the second
    upload, and both records stay, under distinct identifiers. *)
Theorem upload_same_name_overwrites g e1 e2 file1 file2 w r1 w1 r2 w2 :
  filename file1 = filename file2 ->
  now e1 = now e2 ->
  upload_model g e1 file1 w = (inr r1, w1) ->
  upload_model g e2 file2 w1 = (inr r2, w2) ->
  r_url r1 = r_url r2
  /\ r_id r1 <> r_id r2
  /\ files w2 !! save_name e1 file1 = Some (body file2)
  /\ assets w2 !! new_oid e1 = Some (asset_record g e1 file1)
  /\ assets w2 !! new_oid e2 = Some (asset_record g e2 file2).
Proof.
  intros Hname Hnow Hup1 Hup2.
  assert (save_name e1 file1 = save_name e2 file2) as Hsame
    by (unfold save_name; by rewrite Hname, Hnow).
  destruct (upload_model_stored _ _ _ _ _ _ Hup1) as [Hrec1 _].
  destruct (upload_model_stored _ _ _ _ _ _ Hup2) as [Hrec2 Hf2].
  apply upload_model_ok in Hup1 as (_ & _ & _ & _ & _ & _ & -> & _).
  apply upload_model_ok in Hup2 as (_ & _ & _ & _ & _ & Hfree & -> & Hw2).
  assert (new_oid e1 <> new_oid e2) as Hne by congruence.
  simpl. repeat split.
  - by rewrite Hsame.
  - intros Heq. apply Hne.
    apply (f_equal ObjectId_parse) in Heq.
    rewrite !ObjectId_parse_str in Heq. congruence.
  - by rewrite Hsame.
  - rewrite Hw2. unfold assets. simpl. rewrite lookup_insert_eq. simpl.
    by rewrite lookup_insert_ne.
  - done.
Qed.

(** X7: nothing undoes the write when the insert of the record raises:
    the upload fails, no record is added, and the file stays in the storage
    directory. *)
Theorem upload_failed_insert_keeps_file g e file w ex :
  allowed_extension (Py.lower (filename file)) = true ->
  fst (store_to_disk g e file w) = inr tt ->
  fst (create_document g e "asset" (asset_fields g e file)
         (snd (store_to_disk g e file w))) = inl ex ->
  fst (upload_model g e file w) = inl ex
  /\ status (fst (upload_model g e file w)) = 500%nat
  /\ mongo (snd (upload_model g e file w)) = mongo w
  /\ files (snd (upload_model g e file w)) !! save_name e file
     = Some (body file).
Proof.
  intros Hok Hst Hcd. rewrite upload_model_unfold, Hok.
  destruct (store_to_disk g e file w) as [[?|[]] w1] eqn:Hs;
    simpl in Hst; [discriminate|]. simpl in Hcd.
  apply store_to_disk_ok in Hs as (_ & _ & ->).
  pose proof (create_document_fails_mongo _ _ _ _ _ _ Hcd) as Hw.
  destruct (create_document_raises _ _ _ _ _ _ Hcd) as [msg ->].
  destruct (create_document _ _ _ _ _) as [[ex'|id] w2]; simpl in *;
    [|discriminate].
  injection Hcd as ->. subst w2. simpl.
  repeat split. apply lookup_insert_eq.
Qed.

(** Resolution of a single path component below the root. *)
Lemma locate_single root name :
  has_slash name = false ->
  name <> "" -> name <> "." -> name <> ".." ->
  locate root (root +:+ "/" +:+ name) = InRoot name.
Proof.
  intros Hn H0 H1 H2. unfold locate.
  rewrite bool_decide_eq_false_2.
  2:{ intros Heq. apply (f_equal String.length) in Heq.
      rewrite length_app in Heq. simpl in Heq. lia. }
  rewrite <- app_assoc, strip_prefix_app, (components_no_slash _ Hn).
  simpl. by rewrite !bool_decide_eq_false_2.
Qed.

(** X1: for a name that is one path component other than [.] and [..],
    [GET /files/{name}] answers with the bytes of the file of that name in
    the storage directory, or with 404 when there is none; nothing outside
    the directory is read. *)
Theorem serve_file_by_entry g name w :
  has_slash name = false ->
  name <> "" -> name <> "." -> name <> ".." ->
  serve_file g name w
  = match files w !! name with
    | Some content => (inr content, w)
    | None => (inl (HTTPException 404 "File not found"), w)
    end.
Proof.
  intros Hn H0 H1 H2. unfold serve_file, os_path_exists, FileResponse.
  destruct name as [|c rest]; [done|].
  assert (c <> "/"%char) as Hc.
  { intros ->. simpl in Hn. discriminate. }
  rewrite join_STORAGE_DIR, locate_single by done.
  destruct (files w !! String c rest) as [content|] eqn:Hf.
  - rewrite bool_decide_eq_true_2 by eauto. reflexivity.
  - rewrite bool_decide_eq_false_2 by (by intros [? ?]). reflexivity.
Qed.

(** X2: the three [GET] handlers change neither the storage directory nor
    the database, whatever they answer. *)
Theorem get_handlers_read_only g e name id w :
  snd (serve_file g name w) = w
  /\ snd (get_asset g e id w) = w
  /\ snd (test_database g e w) = w.
Proof.
  split; [apply serve_file_world|].
  split; [apply get_asset_world|apply test_database_world].
Qed.

(** X8: [GET /asset/{id}] looks at the database only after the identifier
    has parsed: without a database object, or when the database call
    raises, a well-formed identifier gets 500, while a malformed one still
    gets 400. *)
Theorem get_asset_database_down g e id w :
  db g = None \/ is_Some (db_error e) ->
  status (fst (get_asset g e id w))
  = match ObjectId_parse id with
    | Some _ => 500%nat
    | None => 400%nat
    end.
Proof.
  intros Hdown. rewrite get_asset_unfold.
  destruct (ObjectId_parse id); [|reflexivity].
  destruct Hdown as [->|[msg ->]]; [reflexivity|].
  by destruct (db g).
Qed.

(** X9: two successful uploads never return the same identifier, whatever
    requests are served between them. *)
Theorem upload_ids_distinct g e1 e2 file1 file2 w r1 w1 rs r2 w2 :
  upload_model g e1 file1 w = (inr r1, w1) ->
  upload_model g e2 file2 (serve g rs w1) = (inr r2, w2) ->
  r_id r1 <> r_id r2.
Proof.
  intros Hup1 Hup2.
  destruct (upload_model_stored _ _ _ _ _ _ Hup1) as [Hrec1 _].
  apply (serve_assets g rs) in Hrec1.
  apply upload_model_ok in Hup1 as (_ & _ & _ & _ & _ & _ & -> & _).
  apply upload_model_ok in Hup2 as (_ & _ & _ & _ & _ & Hfree & -> & _).
  simpl. intros Heq. apply (f_equal ObjectId_parse) in Heq.
  rewrite !ObjectId_parse_str in Heq. congruence.
Qed.

(** X13: no sequence of requests removes or changes a record of the asset
    collection. *)
Theorem records_persist g rs w oid doc :
  assets w !! oid = Some doc ->
  assets (serve g rs w) !! oid = Some doc.
Proof. apply serve_assets. Qed.

(** A slice has at most the asked number of code points. *)
Lemma code_points_slice_to n s : (Py.code_points (Py.slice_to n s) <= n)%nat.
Proof.
  revert n. induction s as [|c s IH]; intros n; simpl; [lia|].
  destruct (Py.is_continuation c) eqn:Hc; simpl.
  - rewrite Hc. apply IH.
  - destruct n as [|n]; simpl; [lia|]. rewrite Hc. specialize (IH n). lia.
Qed.

(** A slice is the beginning of the string. *)
Lemma slice_to_prefix n s : exists rest, s = Py.slice_to n s +:+ rest.
Proof.
  revert n. induction s as [|c s IH]; intros n; simpl; [by exists ""|].
  destruct (Py.is_continuation c).
  - destruct (IH n) as [rest Hr]. exists rest. by rewrite app_cons, <- Hr.
  - destruct n as [|n]; [by exists (String c s)|].
    destruct (IH n) as [rest Hr]. exists rest. by rewrite app_cons, <- Hr.
Qed.

(** X10: in the answer of [GET /test], [backend] and [connection_status]
    are the same in every state of the database (the latter always reads
    [Not Connected]); [database_url] and [database_name] tell only whether
    the two environment variables are set to a non-empty value; and the
    initial text of [database] is never what is returned. *)
Theorem test_database_fixed_fields g e w :
  exists r,
    fst (test_database g e w) = inr r
    /\ backend r = "✅ Running"
    /\ connection_status r = "Not Connected"
    /\ database_url r
       = Some (if Py.truthy (getenv e "DATABASE_URL")
               then "✅ Set" else "❌ Not Set")
    /\ database_name r
       = Some (if Py.truthy (getenv e "DATABASE_NAME")
               then "✅ Set" else "❌ Not Set")
    /\ database r <> "❌ Not Available".
Proof.
  unfold test_database, list_collection_names,
    name_or_default, try_except, bind, ret, raise, modify,
    set_database, set_database_url, set_database_name, set_collections,
    set_or_not.
  destruct (db g) as [[[|v|msg]]|]; simpl;
    try destruct (db_error e); simpl;
    eexists; (split; [reflexivity|]); simpl;
    repeat (split; [reflexivity|]);
    intros Heq; vm_compute in Heq; discriminate.
Qed.

(** X11: [collections] holds the first ten collection names when the
    database can be reached and is empty otherwise, so it never has more
    than ten entries. *)
Theorem test_database_collections g e w :
  exists r,
    fst (test_database g e w) = inr r
    /\ collections r
       = (if database_reachable g e
          then take 10 (fst <$> map_to_list (mongo w)) else [])
    /\ (length (collections r) <= 10)%nat.
Proof.
  unfold test_database, database_reachable, list_collection_names,
    name_or_default, try_except, bind, ret, raise, modify,
    set_database, set_database_url, set_database_name, set_collections.
  destruct (db g) as [[[|v|msg]]|]; simpl;
    try destruct (db_error e); simpl;
    eexists; (split; [reflexivity|]); simpl;
    (split; [reflexivity|]); rewrite ?length_take; lia.
Qed.

(** X12: the [database] field, state by state: not initialised without a
    database object; an error text when the lookup of the name or the
    listing of the collections raises, with the beginning of the message up
    to fifty code points; working otherwise. *)
Theorem test_database_field_by_state g e w :
  exists r,
    fst (test_database g e w) = inr r
    /\ database r
       = match db g with
         | None => "⚠️  Available but not initialized"
         | Some d =>
             match name_attr d, db_error e with
             | AttrRaises msg, _ => "❌ Error: " +:+ Py.slice_to 50 msg
             | _, Some msg =>
                 "⚠️  Connected but Error: " +:+ Py.slice_to 50 msg
             | _, None => "✅ Connected & Working"
             end
         end
    /\ (forall msg,
          (Py.code_points (Py.slice_to 50 msg) <= 50)%nat
          /\ exists rest, msg = Py.slice_to 50 msg +:+ rest).
Proof.
  unfold test_database, list_collection_names,
    name_or_default, try_except, bind, ret, raise, modify,
    set_database, set_database_url, set_database_name, set_collections.
  destruct (db g) as [[[|v|msg]]|]; simpl;
    try destruct (db_error e); simpl;
    eexists; (split; [reflexivity|]); simpl;
    (split; [reflexivity|]); intros;
    (split; [apply code_points_slice_to|apply slice_to_prefix]).
Qed.

End More.

(** ** Fetching the url of an upload *)




Section Fetch.
Context `{BsonObjectId}.
Implicit Types (g : Globals) (e : Env) (w : World) (file : UploadFile).





End Fetch.

(** ** The further properties on the concrete service *)

Module SampleMore.
Import Sample.

(** The same clock reading as [e0], with the next identifier. *)
Definition e0' : Env (H := hex_object_id) :=
  mk_Env (H := hex_object_id) (Py.mk_datetime 2024 3 7 9 5 0 1234)
    NoFault None oid_b (fun _ => None).

Definition g_nodb : Globals := mk_Globals "/srv/app" None.

Definition file_up : UploadFile :=
  mk_UploadFile "../../etc/cron.glb" None [x01].

Definition resp0' : UploadResponse :=
  mk_UploadResponse "65f1a2b3c4d5e6f708192a3c"
    "/files/20240307090500001234_Model.GLB".

Definition w1' : World (H := hex_object_id) :=
  snd (upload_model g0 e0' file1 w1).

Definition w_mid : World (H := hex_object_id) :=
  serve g0 [(e0, GetAsset "not-an-id")] w1.

Definition w3 : World (H := hex_object_id) :=
  snd (upload_model g0 e1 file1 w_mid).

Lemma upload0'_ok : upload_model g0 e0' file1 w1 = (inr resp0', w1').
Proof.
  unfold w1'. rewrite (surjective_pairing (upload_model g0 e0' file1 w1)) at 1.
  by f_equal.
Qed.

Lemma upload_mid_ok : upload_model g0 e1 file1 w_mid = (inr resp1, w3).
Proof.
  unfold w3.
  rewrite (surjective_pairing (upload_model g0 e1 file1 w_mid)) at 1.
  by f_equal.
Qed.

Lemma save_name_format_witness :
  exists stamp,
    save_name e0 file0 = stamp +:+ "_" +:+ "Model.GLB"
    /\ String.length stamp = 20%nat
    /\ all_digits stamp = true
    /\ String.length (save_name e0 file0) = 30%nat.
Proof.
  assert (Py.valid_datetime (now e0)) as V0
    by (unfold Py.valid_datetime; simpl; lia).
  destruct (save_name_format e0 file0 V0) as (stamp & Hs & _ & Hl & Hd & Hn);
    [simpl; lia|].
  exists stamp. split; [exact Hs|]. split; [exact Hl|].
  split; [exact Hd|exact Hn].
Defined.

Lemma upload_separator_refused_witness :
  (exists ex, fst (upload_model g0 e0 file_up w1) = inl ex)
  /\ snd (upload_model g0 e0 file_up w1) = w1.
Proof. exact (upload_separator_refused g0 e0 file_up w1 eq_refl). Defined.

Lemma upload_same_name_overwrites_witness :
  r_url resp0 = r_url resp0'
  /\ r_id resp0 <> r_id resp0'
  /\ files w1' !! save_name e0 file0 = Some [x04; x05]
  /\ assets w1' !! oid_a = Some (asset_record g0 e0 file0)
  /\ assets w1' !! oid_b = Some (asset_record g0 e0' file1).
Proof.
  exact (upload_same_name_overwrites g0 e0 e0' file0 file1 w0 resp0 w1
           resp0' w1' eq_refl eq_refl upload0_ok upload0'_ok).
Defined.

Lemma upload_failed_insert_keeps_file_witness :
  fst (upload_model g_nodb e0 file0 w0)
  = inl (Exception "Database not available")
  /\ status (fst (upload_model g_nodb e0 file0 w0)) = 500%nat
  /\ mongo (snd (upload_model g_nodb e0 file0 w0)) = mongo w0
  /\ files (snd (upload_model g_nodb e0 file0 w0)) !! save_name e0 file0
     = Some [x01; x02; x03].
Proof.
  exact (upload_failed_insert_keeps_file g_nodb e0 file0 w0
           (Exception "Database not available") eq_refl eq_refl eq_refl).
Defined.

Lemma serve_file_by_entry_witness :
  serve_file g0 "20240307090500001234_Model.GLB" w1
  = (inr [x01; x02; x03], w1)
  /\ serve_file g0 "missing.glb" w1
     = (inl (HTTPException 404 "File not found"), w1).
Proof.
  split.
  - refine (eq_trans (serve_file_by_entry g0 "20240307090500001234_Model.GLB"
                        w1 eq_refl _ _ _) _); try discriminate.
    reflexivity.
  - refine (eq_trans (serve_file_by_entry g0 "missing.glb" w1 eq_refl _ _ _)
              _); try discriminate.
    reflexivity.
Defined.

Lemma get_asset_database_down_witness :
  status (fst (get_asset g_nodb e0 "65f1a2b3c4d5e6f708192a3b" w1)) = 500%nat
  /\ status (fst (get_asset g_nodb e0 "not-an-id" w1)) = 400%nat.
Proof.
  split.
  - exact (get_asset_database_down g_nodb e0 "65f1a2b3c4d5e6f708192a3b" w1
             (or_introl eq_refl)).
  - exact (get_asset_database_down g_nodb e0 "not-an-id" w1
             (or_introl eq_refl)).
Defined.

Lemma upload_ids_distinct_witness : r_id resp0 <> r_id resp1.
Proof.
  exact (upload_ids_distinct g0 e0 e1 file0 file1 w0 resp0 w1
           [(e0, GetAsset "not-an-id")] resp1 w3 upload0_ok upload_mid_ok).
Defined.

Lemma records_persist_witness :
  assets (serve g0 [(e0, PostUpload file0); (e1, GetFile "x")] w_plain)
    !! oid_a = Some doc_plain.
Proof.
  exact (records_persist g0 [(e0, PostUpload file0); (e1, GetFile "x")]
           w_plain oid_a doc_plain eq_refl).
Defined.







Lemma upload_success_requires_witness :
  allowed_extension (Py.lower "Model.GLB") = true
  /\ has_slash "Model.GLB" = false
  /\ disk e0 = NoFault
  /\ is_Some (db g0) /\ db_error e0 = None
  /\ assets w0 !! oid_a = None.
Proof.
  exact (upload_success_requires g0 e0 file0 w0 resp0 w1 upload0_ok).
Defined.

(** What fetching a url asks the server for. *)
Example request_path_ex :
  request_path "/files/1_a b.glb" = "/files/1_a b.glb"
  /\ request_path "/files/1_a?b.glb" = "/files/1_a"
  /\ request_path "/files/1_a#b.glb" = "/files/1_a"
  /\ request_path "/files/1_a%41.glb" = "/files/1_aA.glb"
  /\ request_path "/files/1_100%.glb" = "/files/1_100%.glb".
Proof. repeat split. Qed.

(** Slices count code points: the two bytes of a letter with an accent
    stay together. *)
Example slice_to_ex :
  Py.slice_to 3 "timeout" = "tim"
  /\ Py.slice_to 2 "déjà" = "dé"
  /\ Py.code_points "déjà" = 4%nat
  /\ String.length "déjà" = 6%nat.
Proof. repeat split. Qed.

End SampleMore.
